(** * HyperCoast: the spectral inspection widget ([hypercoast/ui.py])

    A shallow embedding of [SpectralWidget]: the widget, the host map it
    mutates and the notebook objects it drives are records; every callback
    of the class is a computation in a state-and-exception monad over one
    [World], so that a Python exception leaves the mutations made before it
    in place, as in the interpreter. *)

From Stdlib Require Import QArith.
From stdpp Require Import gmap strings list fin_maps pretty.

Local Open Scope string_scope.
Local Open Scope list_scope.

(** ** Numbers and arrays *)

(** A float64 cell of a numpy array.  A finite float is the rational it
    denotes; comparing with [0] is exact on those. *)
Inductive float64 :=
| Finite (q : Q)
| PosInf
| NegInf
| NaN.

(** [x < 0] on one cell; every comparison with NaN is false. *)
Definition lt_zero (x : float64) : bool :=
  match x with
  | Finite q => (Qnum q <? 0)%Z
  | NegInf => true
  | PosInf | NaN => false
  end.

(** [da[da < 0] = np.nan], cell by cell. *)
Definition mask_cell (x : float64) : float64 :=
  if lt_zero x then NaN else x.

Definition mask_negative (xs : list float64) : list float64 :=
  map mask_cell xs.

(** A numpy array is a reference to its buffer: [.values] of a selection
    is a view, so two holders of the same [loc] see each other's writes. *)
Definition loc := positive.

(** ** The key of a sample: [f"({lat:.4f} {lon:.4f})"] *)

(** Round the non-negative fraction [n / d] to the nearest integer, ties
    to even (what [format] does with the digits it drops). *)
Definition round_half_even (n : Z) (d : positive) : Z :=
  let q := (n / Zpos d)%Z in
  let r := (n mod Zpos d)%Z in
  match (2 * r ?= Zpos d)%Z with
  | Lt => q
  | Gt => (q + 1)%Z
  | Eq => if Z.even q then q else (q + 1)%Z
  end.

Fixpoint zeros (n : nat) : string :=
  match n with
  | O => ""
  | S n' => "0" +:+ zeros n'
  end.

(** Left-pad with ["0"] up to [width] characters. *)
Definition zfill (width : nat) (s : string) : string :=
  zeros (width - String.length s) +:+ s.

(** [format(x, ".4f")] for a finite number [x]. *)
Definition format_4f (x : Q) : string :=
  let m := round_half_even (Z.abs (Qnum x) * 10000) (Qden x) in
  (if (Qnum x <? 0)%Z then "-" else "")
    +:+ pretty (m / 10000)%Z +:+ "." +:+ zfill 4 (pretty (m mod 10000)%Z).

Definition sample_key (lat lon : Q) : string :=
  "(" +:+ format_4f lat +:+ " " +:+ format_4f lon +:+ ")".





(** ** Objects of the notebook *)

(** The controls that can sit on the host map. *)
Inductive control :=
| OutputControl                  (* WidgetControl(widget=output, position="bottomright") *)
| SpectralControl                (* WidgetControl(widget=self, position=position) *)
| FileChooserControl (n : nat)   (* WidgetControl(widget=file_chooser, position="topright"), n-th chooser *)
| HostControl (n : nat).         (* any other control the host carries *)

Global Instance control_eq_dec : EqDecision control.
Proof. solve_decision. Defined.

(** The callbacks subscribed to the map's interaction events. *)
Inductive handler :=
| WidgetHandler                  (* the closure handle_interaction *)
| HostHandler (n : nat).

Global Instance handler_eq_dec : EqDecision handler.
Proof. solve_decision. Defined.

(** What Python raises. *)
Inductive fault :=
| AttributeError (attr : string)
| TypeError (what : string)
| IndexError
| KeyError (key : string)
| ControlException (c : control).

(** An [ipyleaflet.Marker]: its location. *)
Definition Marker := list Q.

(** What the output panel shows. *)
Inductive display_item :=
| Figure (x y : list float64)    (* plt.plot(x, y); plt.show() *)
| Traceback (e : fault).

(** [widgets.Output]. *)
Record Output := mkOutput {
  out_items : list display_item;
  out_closed : bool
}.

(** The reflectance selected at a point: [.values] and the coordinate of
    its first dimension, [da.coords[da.dims[0]].values].  [None] when the
    selection has no dimension left: on such an array already the masking
    [da[da < 0] = np.nan] raises IndexError, before it writes a cell. *)
Record DataArray := mkDataArray {
  da_values : loc;
  da_dim0_coord : option loc
}.

(** The part of an [xarray.Dataset] the widget uses. *)
Record Dataset := mkDataset {
  (* ds.sel(latitude=lat, longitude=lon, method="nearest")["reflectance"];
     None when one of the two lookups raises *)
  sel_reflectance : Q → Q → option DataArray;
  (* ds["wavelengths"].values; None when the dataset has no such variable *)
  ds_wavelengths : option loc
}.

(** An entry of [cog_layer_dict]: a dict, read at ["xds"]. *)
Record Layer := mkLayer {
  xds : option Dataset
}.

(** The host map.  The attributes the widget tests with [hasattr], or
    creates itself, are optional. *)
Record HostMap := mkHostMap {
  cog_layer_dict : list (string * Layer);
  controls : list control;
  interaction_callbacks : list handler;
  default_style : string;                          (* the "cursor" entry *)
  _plot_marker_cluster : option (list Marker);     (* the cluster's .markers *)
  _plot_markers : option (list Marker);
  _spectral_data : option (gmap string loc);
  _file_chooser : option nat;
  _file_chooser_control : option nat;              (* control of the n-th chooser *)
  csv_exports : list string;                       (* the calls spectral_to_csv(path) *)
  strict_controls : bool                           (* remove_control rejects a control that is not on the map *)
}.

(** The handle [self._spectral_widget]: the widget itself. *)
Inductive self_ref := Self.

(** The attributes of the widget; [layers_value] is the value of the
    dropdown [layers_widget] the handler closes over. *)
Record SpectralWidget := mkSpectralWidget {
  on_close : option nat;
  layers_options : list string;
  layers_value : option string;
  position : string;
  closed : bool;
  _output_widget : option Output;
  _output_control : option control;
  _spectral_widget : option self_ref;
  _spectral_control : option control
}.

(** A [FileChooser] as its callback sees it. *)
Record FileChooser := mkFileChooser {
  fc_id : nat;
  selected : option string
}.

(** Everything a callback can touch. *)
Record World := mkWorld {
  _host_map : HostMap;
  self : SpectralWidget;
  memory : gmap loc (list float64);   (* the buffers behind the arrays *)
  in_kernel : bool;                   (* get_ipython() is set *)
  file_choosers : nat;                (* choosers created so far *)
  closed_choosers : list nat;
  on_close_calls : list nat           (* the on_close callbacks run so far *)
}.

(** An interaction event: the keyword arguments of the callback. *)
Record Event := mkEvent {
  ev_type : option string;
  ev_coordinates : option (list Q)
}.

(** ** Attribute assignment *)

Definition set_controls (v : list control) (m : HostMap) : HostMap :=
  mkHostMap (cog_layer_dict m) v (interaction_callbacks m) (default_style m)
    (_plot_marker_cluster m) (_plot_markers m) (_spectral_data m)
    (_file_chooser m) (_file_chooser_control m) (csv_exports m) (strict_controls m).

Definition set_interaction_callbacks (v : list handler) (m : HostMap) : HostMap :=
  mkHostMap (cog_layer_dict m) (controls m) v (default_style m)
    (_plot_marker_cluster m) (_plot_markers m) (_spectral_data m)
    (_file_chooser m) (_file_chooser_control m) (csv_exports m) (strict_controls m).

Definition set_default_style (v : string) (m : HostMap) : HostMap :=
  mkHostMap (cog_layer_dict m) (controls m) (interaction_callbacks m) v
    (_plot_marker_cluster m) (_plot_markers m) (_spectral_data m)
    (_file_chooser m) (_file_chooser_control m) (csv_exports m) (strict_controls m).

Definition set_plot_marker_cluster (v : option (list Marker)) (m : HostMap) : HostMap :=
  mkHostMap (cog_layer_dict m) (controls m) (interaction_callbacks m) (default_style m)
    v (_plot_markers m) (_spectral_data m)
    (_file_chooser m) (_file_chooser_control m) (csv_exports m) (strict_controls m).

Definition set_plot_markers (v : option (list Marker)) (m : HostMap) : HostMap :=
  mkHostMap (cog_layer_dict m) (controls m) (interaction_callbacks m) (default_style m)
    (_plot_marker_cluster m) v (_spectral_data m)
    (_file_chooser m) (_file_chooser_control m) (csv_exports m) (strict_controls m).

Definition set_spectral_data (v : option (gmap string loc)) (m : HostMap) : HostMap :=
  mkHostMap (cog_layer_dict m) (controls m) (interaction_callbacks m) (default_style m)
    (_plot_marker_cluster m) (_plot_markers m) v
    (_file_chooser m) (_file_chooser_control m) (csv_exports m) (strict_controls m).

Definition set_file_chooser (v : option nat) (m : HostMap) : HostMap :=
  mkHostMap (cog_layer_dict m) (controls m) (interaction_callbacks m) (default_style m)
    (_plot_marker_cluster m) (_plot_markers m) (_spectral_data m)
    v (_file_chooser_control m) (csv_exports m) (strict_controls m).

Definition set_file_chooser_control (v : option nat) (m : HostMap) : HostMap :=
  mkHostMap (cog_layer_dict m) (controls m) (interaction_callbacks m) (default_style m)
    (_plot_marker_cluster m) (_plot_markers m) (_spectral_data m)
    (_file_chooser m) v (csv_exports m) (strict_controls m).

Definition set_csv_exports (v : list string) (m : HostMap) : HostMap :=
  mkHostMap (cog_layer_dict m) (controls m) (interaction_callbacks m) (default_style m)
    (_plot_marker_cluster m) (_plot_markers m) (_spectral_data m)
    (_file_chooser m) (_file_chooser_control m) v (strict_controls m).

Definition set_layers_value (v : option string) (s : SpectralWidget) : SpectralWidget :=
  mkSpectralWidget (on_close s) (layers_options s) v (position s) (closed s)
    (_output_widget s) (_output_control s) (_spectral_widget s) (_spectral_control s).

Definition set_closed (v : bool) (s : SpectralWidget) : SpectralWidget :=
  mkSpectralWidget (on_close s) (layers_options s) (layers_value s) (position s) v
    (_output_widget s) (_output_control s) (_spectral_widget s) (_spectral_control s).

Definition set_output_widget (v : option Output) (s : SpectralWidget) : SpectralWidget :=
  mkSpectralWidget (on_close s) (layers_options s) (layers_value s) (position s) (closed s)
    v (_output_control s) (_spectral_widget s) (_spectral_control s).

Definition set_spectral_widget (v : option self_ref) (s : SpectralWidget) : SpectralWidget :=
  mkSpectralWidget (on_close s) (layers_options s) (layers_value s) (position s) (closed s)
    (_output_widget s) (_output_control s) v (_spectral_control s).

Definition set_spectral_control (v : option control) (s : SpectralWidget) : SpectralWidget :=
  mkSpectralWidget (on_close s) (layers_options s) (layers_value s) (position s) (closed s)
    (_output_widget s) (_output_control s) (_spectral_widget s) v.

Definition upd_host (f : HostMap → HostMap) (w : World) : World :=
  mkWorld (f (_host_map w)) (self w) (memory w) (in_kernel w)
    (file_choosers w) (closed_choosers w) (on_close_calls w).

Definition upd_self (f : SpectralWidget → SpectralWidget) (w : World) : World :=
  mkWorld (_host_map w) (f (self w)) (memory w) (in_kernel w)
    (file_choosers w) (closed_choosers w) (on_close_calls w).

Definition set_memory (v : gmap loc (list float64)) (w : World) : World :=
  mkWorld (_host_map w) (self w) v (in_kernel w)
    (file_choosers w) (closed_choosers w) (on_close_calls w).

Definition set_file_choosers (v : nat) (w : World) : World :=
  mkWorld (_host_map w) (self w) (memory w) (in_kernel w)
    v (closed_choosers w) (on_close_calls w).

Definition set_closed_choosers (v : list nat) (w : World) : World :=
  mkWorld (_host_map w) (self w) (memory w) (in_kernel w)
    (file_choosers w) v (on_close_calls w).

Definition set_on_close_calls (v : list nat) (w : World) : World :=
  mkWorld (_host_map w) (self w) (memory w) (in_kernel w)
    (file_choosers w) (closed_choosers w) v.

(** ** Computations: state and exceptions *)

Inductive outcome (A : Type) :=
| Returned (a : A)
| Raised (e : fault).
Arguments Returned {A} a.
Arguments Raised {A} e.

Definition M (A : Type) : Type := World → outcome A * World.

Global Instance M_ret : MRet M := λ A a w, (Returned a, w).

Global Instance M_bind : MBind M := λ A B f m w,
  match m w with
  | (Returned a, w') => f a w'
  | (Raised e, w') => (Raised e, w')
  end.

Definition raise {A} (e : fault) : M A := λ w, (Raised e, w).
Definition gets {A} (f : World → A) : M A := λ w, (Returned (f w), w).
Definition modify (f : World → World) : M unit := λ w, (Returned tt, f w).
Definition skip : M unit := mret tt.

(** The state a computation leaves, and what it did. *)
Definition exec {A} (m : M A) (w : World) : World := (m w).2.
Definition result {A} (m : M A) (w : World) : outcome A := (m w).1.

(** ** What the widget calls on other objects *)

(** [Map.add(control)].  Every control the widget adds is one it has just
    built, so the map's refusal of a control it already carries cannot
    fire. *)
Definition add (c : control) : M unit :=
  modify (upd_host (λ m, set_controls (controls m ++ [c]) m)).

(** [Map.remove_control(control)]. *)
Definition remove_control (c : control) : M unit := λ w,
  let m := _host_map w in
  if bool_decide (c ∈ controls m) then
    (Returned tt, upd_host (set_controls (filter (λ c', c' ≠ c) (controls m))) w)
  else if strict_controls m then (Raised (ControlException c), w)
  else (Returned tt, w).

(** [Map.on_interaction(callback, remove)]: registers a callback that is
    not yet registered, or unregisters it.  The dispatcher never holds a
    callback twice, so unregistering leaves none. *)
Definition on_interaction (callback : handler) (remove : bool) : M unit := λ w,
  let cbs := interaction_callbacks (_host_map w) in
  if remove then
    (Returned tt,
     upd_host (set_interaction_callbacks (filter (λ cb, cb ≠ callback) cbs)) w)
  else if bool_decide (callback ∈ cbs) then (Returned tt, w)
  else (Returned tt, upd_host (set_interaction_callbacks (cbs ++ [callback])) w).

(** [Map.spectral_to_csv(path)], a method of the host: the call is
    recorded. *)
Definition spectral_to_csv (file_path : string) : M unit :=
  modify (upd_host (λ m, set_csv_exports (csv_exports m ++ [file_path]) m)).

(** [self._output_widget.clear_output()]. *)
Definition clear_output : M unit := λ w,
  match _output_widget (self w) with
  | Some o => (Returned tt,
               upd_self (set_output_widget (Some (mkOutput [] (out_closed o)))) w)
  | None => (Raised (AttributeError "clear_output"), w)
  end.

(** Something shown while the output widget captures. *)
Definition display (item : display_item) : M unit := λ w,
  match _output_widget (self w) with
  | Some o => (Returned tt,
               upd_self (set_output_widget
                 (Some (mkOutput (out_items o ++ [item]) (out_closed o)))) w)
  | None => (Returned tt, w)
  end.

(** [with self._output_widget: body].  On leaving, the output widget
    shows an exception of the body and swallows it when an IPython kernel
    runs; otherwise the exception goes on. *)
Definition with_output (body : M unit) : M unit := λ w,
  match _output_widget (self w) with
  | None => (Raised (TypeError "context manager"), w)
  | Some _ =>
      match body w with
      | (Returned a, w') => (Returned a, w')
      | (Raised e, w') =>
          if in_kernel w' then display (Traceback e) w' else (Raised e, w')
      end
  end.

(** [seq[i]] where [seq] may be [None]. *)
Definition subscript {A} (seq : option (list A)) (i : nat) : M A :=
  match seq with
  | None => raise (TypeError "'NoneType' object is not subscriptable")
  | Some l =>
      match l !! i with
      | Some x => mret x
      | None => raise IndexError
      end
  end.

(** [d[key]] on a dict kept in insertion order. *)
Fixpoint dict_get {V} (key : string) (d : list (string * V)) : option V :=
  match d with
  | [] => None
  | (k, v) :: d' => if bool_decide (k = key) then Some v else dict_get key d'
  end.

(** The cells behind an array. *)
Definition read (mem : gmap loc (list float64)) (l : loc) : list float64 :=
  default [] (mem !! l).

(** ** The callbacks of [SpectralWidget] *)

Definition reset_btn_click : M unit :=
  m ← gets _host_map;
  (match _plot_marker_cluster m with
   | Some _ =>
       modify (upd_host (set_plot_marker_cluster (Some [])));;
       modify (upd_host (set_plot_markers (Some [])))
   | None => skip
   end);;
  m ← gets _host_map;
  (match _spectral_data m with
   | Some _ => modify (upd_host (set_spectral_data (Some ∅)))
   | None => skip
   end);;
  clear_output.

Definition chooser_callback (chooser : FileChooser) : M unit :=
  match selected chooser with
  | Some file_path =>
      if bool_decide (file_path = "") then skip
      else
        spectral_to_csv file_path;;
        m ← gets _host_map;
        match _file_chooser_control m with
        | Some n =>
            if bool_decide (FileChooserControl n ∈ controls m) then
              remove_control (FileChooserControl n);;
              match _file_chooser m with
              | Some k => modify (λ w, set_closed_choosers (closed_choosers w ++ [k]) w)
              | None => raise (AttributeError "_file_chooser")
              end
            else skip
        | None => skip
        end
  | None => skip
  end.

Definition save_btn_click : M unit :=
  m ← gets _host_map;
  match _spectral_data m with
  | None => skip
  | Some _ =>
      clear_output;;
      file_chooser ← gets file_choosers;
      modify (set_file_choosers (S file_chooser));;
      add (FileChooserControl file_chooser);;
      modify (upd_host (set_file_chooser (Some file_chooser)));;
      modify (upd_host (set_file_chooser_control (Some file_chooser)))
  end.

(** The body of the [with] block of [handle_interaction]. *)
Definition record_sample (latlon : option (list Q)) (lat lon : Q)
    (layer_name : option string) : M unit :=
  clear_output;;
  m ← gets _host_map;
  (match _plot_markers m with
   | None => modify (upd_host (set_plot_markers (Some [])))
   | Some _ => skip
   end);;
  m ← gets _host_map;
  let markers := default [] (_plot_markers m) in
  match _plot_marker_cluster m with
  | None => raise (AttributeError "_plot_marker_cluster")
  | Some _ =>
      let markers := markers ++ [default [] latlon] in
      modify (upd_host (set_plot_markers (Some markers)));;
      modify (upd_host (set_plot_marker_cluster (Some markers)));;
      match layer_name ≫= λ name, dict_get name (cog_layer_dict m) with
      | None => raise (KeyError (default "None" layer_name))
      | Some layer =>
          match xds layer with
          | None => raise (KeyError "xds")
          | Some ds =>
              match sel_reflectance ds lat lon with
              | None => raise (KeyError "reflectance")
              | Some da =>
                  match _spectral_data m with
                  | None => raise (AttributeError "_spectral_data")
                  | Some spectral_data =>
                      (if bool_decide (is_Some (spectral_data !! "wavelengths")) then skip
                       else
                         match ds_wavelengths ds with
                         | None => raise (KeyError "wavelengths")
                         | Some values =>
                             modify (upd_host (set_spectral_data
                               (Some (<["wavelengths" := values]> spectral_data))))
                         end);;
                      modify (upd_host (λ m,
                        set_spectral_data
                          (insert (sample_key lat lon) (da_values da) <$> _spectral_data m) m));;
                      match da_dim0_coord da with
                      | None => raise IndexError
                      | Some coord =>
                          modify (λ w, set_memory (alter mask_negative (da_values da) (memory w)) w);;
                          mem ← gets memory;
                          display (Figure (read mem coord) (read mem (da_values da)))
                      end
                  end
              end
          end
      end
  end.

Definition handle_interaction (kwargs : Event) : M unit :=
  let latlon := ev_coordinates kwargs in
  lat ← subscript latlon 0;
  lon ← subscript latlon 1;
  if bool_decide (ev_type kwargs = Some "click") then
    layer_name ← gets (λ w, layers_value (self w));
    with_output (record_sample latlon lat lon layer_name);;
    modify (upd_host (set_default_style "crosshair"))
  else skip.

(** [SpectralWidget.__init__(self, host_map, position)]: the world holds
    [host_map]; whatever [self] held before is overwritten. *)
Definition __init__ (position : string) : M unit :=
  host_map ← gets _host_map;
  let layer_names := (cog_layer_dict host_map).*1 in
  modify (upd_self (λ _,
    {| on_close := None;
       layers_options := layer_names;
       layers_value := head layer_names;
       position := position;
       closed := false;
       _output_widget := Some (mkOutput [] false);
       _output_control := Some OutputControl;
       _spectral_widget := None;
       _spectral_control := None |}));;
  add OutputControl;;
  (match _spectral_data host_map with
   | None => modify (upd_host (set_spectral_data (Some ∅)))
   | Some _ => skip
   end);;
  on_interaction WidgetHandler false;;
  modify (upd_self (set_spectral_widget (Some Self)));;
  modify (upd_self (set_spectral_control (Some SpectralControl)));;
  add SpectralControl.

(** [SpectralWidget.cleanup(self)].  [self._host_map] is the map the
    constructor was given, a widget object, hence true. *)
Definition cleanup : M unit :=
  modify (upd_host (set_default_style "default"));;
  on_interaction WidgetHandler true;;
  s ← gets self;
  (match _output_control s with
   | Some output_control =>
       remove_control output_control;;
       match _output_widget s with
       | Some o =>
           modify (upd_self (set_output_widget (Some (mkOutput (out_items o) true))));;
           modify (upd_self (set_output_widget None))
       | None => skip
       end
   | None => skip
   end);;
  (match _spectral_control s with
   | Some spectral_control =>
       remove_control spectral_control;;
       modify (upd_self (set_spectral_control None));;
       match _spectral_widget s with
       | Some Self =>
           modify (upd_self (set_closed true));;
           modify (upd_self (set_spectral_widget None))
       | None => skip
       end
   | None => skip
   end);;
  m ← gets _host_map;
  (match _plot_marker_cluster m with
   | Some _ =>
       modify (upd_host (set_plot_marker_cluster (Some [])));;
       modify (upd_host (set_plot_markers (Some [])))
   | None => skip
   end);;
  (match _spectral_data m with
   | Some _ => modify (upd_host (set_spectral_data (Some ∅)))
   | None => skip
   end);;
  s ← gets self;
  (match _output_widget s with
   | Some _ => clear_output
   | None => skip
   end);;
  match on_close s with
  | Some callback => modify (λ w, set_on_close_calls (on_close_calls w ++ [callback]) w)
  | None => skip
  end.

Definition close_widget : M unit := cleanup.

(** ** The session: what can happen to a widget *)

(** The map hands an interaction event to the callbacks subscribed to it. *)
Definition dispatch (kwargs : Event) : M unit :=
  m ← gets _host_map;
  if bool_decide (WidgetHandler ∈ interaction_callbacks m)
  then handle_interaction kwargs
  else skip.

(** The user picks an entry of the dropdown. *)
Definition select_layer (name : string) : M unit :=
  s ← gets self;
  if bool_decide (name ∈ layers_options s)
  then modify (upd_self (set_layers_value (Some name)))
  else skip.

Inductive action :=
| Interaction (kwargs : Event)           (* an interaction event on the map *)
| SelectLayer (name : string)
| ResetClick
| SaveClick
| CloseClick
| ChooserCallback (chooser : FileChooser)
| Cleanup.                               (* widget.cleanup() called directly *)

Definition step (a : action) : M unit :=
  match a with
  | Interaction kwargs => dispatch kwargs
  | SelectLayer name => select_layer name
  | ResetClick => reset_btn_click
  | SaveClick => save_btn_click
  | CloseClick => close_widget
  | ChooserCallback chooser => chooser_callback chooser
  | Cleanup => cleanup
  end.

Definition closes (a : action) : bool :=
  match a with
  | CloseClick | Cleanup => true
  | _ => false
  end.

(** The handler run on a sequence of events; an exception ends one call,
    not the session. *)
Definition after_events (events : list Event) (w : World) : World :=
  foldl (λ w kwargs, exec (handle_interaction kwargs) w) w events.

(** ** Observations *)

Definition samples (w : World) : gmap string loc :=
  default ∅ (_spectral_data (_host_map w)).

Definition marker_list (w : World) : list Marker :=
  default [] (_plot_markers (_host_map w)).

Definition cluster_markers (w : World) : list Marker :=
  default [] (_plot_marker_cluster (_host_map w)).

Definition panel_items (w : World) : list display_item :=
  from_option out_items [] (_output_widget (self w)).

(** The two states of the widget. *)
Definition Active (w : World) : Prop :=
  WidgetHandler ∈ interaction_callbacks (_host_map w)
  ∧ _output_control (self w) = Some OutputControl
  ∧ OutputControl ∈ controls (_host_map w)
  ∧ _spectral_control (self w) = Some SpectralControl
  ∧ SpectralControl ∈ controls (_host_map w)
  ∧ is_Some (_output_widget (self w)).

Definition Closed (w : World) : Prop :=
  (WidgetHandler ∉ interaction_callbacks (_host_map w))
  ∧ (OutputControl ∉ controls (_host_map w))
  ∧ (SpectralControl ∉ controls (_host_map w)).

Global Instance Active_dec w : Decision (Active w).
Proof. unfold Active. apply _. Defined.

Global Instance Closed_dec w : Decision (Closed w).
Proof. unfold Closed. apply _. Defined.

(** Markers reach the marker list only through a click that found the
    marker cluster: without a cluster the list holds none. *)
Definition markers_tracked (w : World) : Prop :=
  _plot_marker_cluster (_host_map w) = None → marker_list w = [].

(** ** Properties of states and computations *)

(** A computation keeps a property of the state, whether it returns or
    raises. *)
Definition preserves {A} (P : World → Prop) (m : M A) : Prop :=
  ∀ w, P w → P (exec m w).

Definition has_spectral_data (w : World) : Prop :=
  is_Some (_spectral_data (_host_map w)).
(** A click at [(lat, lon)] that gets as far as the dataset [ds] of the
    selected layer and its reflectance [da] there: the panel is held, the
    map has its marker cluster and its sample mapping, the selected layer
    is registered with a dataset, and the selection finds the point. *)
Definition click_reaches (kwargs : Event) (w : World)
    (lat lon : Q) (ds : Dataset) (da : DataArray) : Prop :=
  ev_type kwargs = Some "click"
  ∧ (∃ rest, ev_coordinates kwargs = Some (lat :: lon :: rest))
  ∧ is_Some (_output_widget (self w))
  ∧ is_Some (_plot_marker_cluster (_host_map w))
  ∧ (∃ name layer,
       layers_value (self w) = Some name
       ∧ dict_get name (cog_layer_dict (_host_map w)) = Some layer
       ∧ xds layer = Some ds)
  ∧ sel_reflectance ds lat lon = Some da
  ∧ is_Some (_spectral_data (_host_map w)).

(** The references cleanup tests before it uses them: the [hasattr]
    attributes of the host map and the handles it sets to [None]. *)
Definition guarded_references (w : World) :=
  (_plot_marker_cluster (_host_map w), _plot_markers (_host_map w),
   _spectral_data (_host_map w),
   _output_widget (self w), _spectral_control (self w), _spectral_widget (self w)).

(** What a cleanup that returned leaves behind. *)
Definition cleaned_up (w w1 : World) : Prop :=
  _output_control (self w1) = _output_control (self w)
  ∧ strict_controls (_host_map w1) = strict_controls (_host_map w)
  ∧ (∀ c, _output_control (self w) = Some c →
       (c ∉ controls (_host_map w1)) ∧ _output_widget (self w1) = None)
  ∧ (∀ o, _output_widget (self w1) = Some o → out_items o = [])
  ∧ _spectral_control (self w1) = None
  ∧ (_plot_marker_cluster (_host_map w1) = None
     ∨ (_plot_marker_cluster (_host_map w1) = Some []
        ∧ _plot_markers (_host_map w1) = Some []))
  ∧ (_spectral_data (_host_map w1) = None
     ∨ _spectral_data (_host_map w1) = Some ∅).


(** ** A small session, to run the callbacks on *)

Definition example_dataset : Dataset :=
  {| sel_reflectance := λ _ _,
       Some {| da_values := 1%positive; da_dim0_coord := Some 2%positive |};
     ds_wavelengths := Some 2%positive |}.

Definition example_memory : gmap loc (list float64) :=
  {[ 1%positive := [Finite (1 # 2); Finite (- (1 # 10)); NaN; NegInf];
     2%positive := [Finite 400; Finite 500; Finite 600; Finite 700] ]}.

Definition example_host : HostMap :=
  {| cog_layer_dict := [("EMIT", {| xds := Some example_dataset |})];
     controls := [HostControl 0];
     interaction_callbacks := [];
     default_style := "grab";
     _plot_marker_cluster := Some [];
     _plot_markers := None;
     _spectral_data := None;
     _file_chooser := None;
     _file_chooser_control := None;
     csv_exports := [];
     strict_controls := true |}.

Definition blank_widget : SpectralWidget :=
  {| on_close := None;
     layers_options := [];
     layers_value := None;
     position := "";
     closed := false;
     _output_widget := None;
     _output_control := None;
     _spectral_widget := None;
     _spectral_control := None |}.

(** The host before the widget is built. *)
Definition example_session : World :=
  mkWorld example_host blank_widget example_memory true 0 [] [].

(** The widget just built, with a completion callback set by the caller. *)
Definition example_widget : World :=
  upd_self (λ s, mkSpectralWidget (Some 7) (layers_options s) (layers_value s)
                   (position s) (closed s) (_output_widget s) (_output_control s)
                   (_spectral_widget s) (_spectral_control s))
    (exec (__init__ "topright") example_session).

Definition example_click : Event :=
  {| ev_type := Some "click";
     ev_coordinates := Some [(69 # 2); - (473 # 4)] |}.

Definition example_chooser : FileChooser :=
  {| fc_id := 0; selected := Some "spectral_data.csv" |}.

(** ** Further observations *)

(** The reflectance the handler would select for a click at [(lat, lon)]:
    the dropdown's layer, its dataset, the nearest point.  [None] when one
    of the lookups raises. *)
Definition selected_reflectance (w : World) (lat lon : Q) : option DataArray :=
  name ← layers_value (self w);
  layer ← dict_get name (cog_layer_dict (_host_map w));
  ds ← xds layer;
  sel_reflectance ds lat lon.

(** A click event with its two coordinates, on a widget that holds its
    output panel. *)
Definition click_at (kwargs : Event) (w : World) (latlon : list Q) (lat lon : Q) : Prop :=
  ev_type kwargs = Some "click"
  ∧ ev_coordinates kwargs = Some latlon
  ∧ latlon !! 0 = Some lat
  ∧ latlon !! 1 = Some lon
  ∧ is_Some (_output_widget (self w)).

(** The actions that erase the samples. *)
Definition clears (a : action) : bool :=
  match a with
  | ResetClick | CloseClick | Cleanup => true
  | _ => false
  end.

(** A sequence of actions; an exception ends one action, not the
    session. *)
Definition after_actions (actions : list action) (w : World) : World :=
  foldl (λ w a, exec (step a) w) w actions.

(** The sample keys proper: the mapping without its wavelengths entry. *)
Definition sample_count (w : World) : nat :=
  size (delete "wavelengths" (samples w)).

(** The example host before any layer is registered. *)
Definition example_session_without_layers : World :=
  upd_host (λ m, mkHostMap [] (controls m) (interaction_callbacks m)
                   (default_style m) (_plot_marker_cluster m) (_plot_markers m)
                   (_spectral_data m) (_file_chooser m) (_file_chooser_control m)
                   (csv_exports m) (strict_controls m))
    example_session.

(** The end of [cleanup], from the test of the marker cluster on: the
    part that empties markers, samples and panel and runs the callback. *)
Definition cleanup_tail : M unit :=
  m ← gets _host_map;
  (match _plot_marker_cluster m with
   | Some _ =>
       modify (upd_host (set_plot_marker_cluster (Some [])));;
       modify (upd_host (set_plot_markers (Some [])))
   | None => skip
   end);;
  (match _spectral_data m with
   | Some _ => modify (upd_host (set_spectral_data (Some ∅)))
   | None => skip
   end);;
  s ← gets self;
  (match _output_widget s with
   | Some _ => clear_output
   | None => skip
   end);;
  match on_close s with
  | Some callback => modify (λ w, set_on_close_calls (on_close_calls w ++ [callback]) w)
  | None => skip
  end.

(** ** Reasoning about computations *)

Section Preserves.
Context (P : World → Prop).

Lemma preserves_bind {A B} (m : M A) (f : A → M B) :
  preserves P m → (∀ a, preserves P (f a)) → preserves P (m ≫= f).
Proof.
  intros Hm Hf w Hw. unfold exec, mbind, M_bind.
  specialize (Hm w Hw). unfold exec in Hm.
  destruct (m w) as [[a|e] w']; simpl in *; [by apply Hf | done].
Qed.

Lemma preserves_ret {A} (a : A) : preserves P (mret a).
Proof. by intros w Hw. Qed.

Lemma preserves_skip : preserves P skip.
Proof. by intros w Hw. Qed.

Lemma preserves_raise {A} e : preserves P (@raise A e).
Proof. by intros w Hw. Qed.

Lemma preserves_gets {A} (f : World → A) : preserves P (gets f).
Proof. by intros w Hw. Qed.

Lemma preserves_modify (f : World → World) :
  (∀ w, P w → P (f w)) → preserves P (modify f).
Proof. intros Hf w Hw. by apply Hf. Qed.

Lemma preserves_subscript {A} (seq : option (list A)) i :
  preserves P (subscript seq i).
Proof. intros w Hw. unfold exec, subscript. by repeat case_match. Qed.

Lemma preserves_with_output body :
  preserves P body → (∀ e, preserves P (display (Traceback e))) →
  preserves P (with_output body).
Proof.
  intros Hb Hd w Hw. unfold exec, with_output.
  destruct (_output_widget (self w)); [|done].
  specialize (Hb w Hw). unfold exec in Hb.
  destruct (body w) as [[a|e] w']; simpl in *; [done|].
  destruct (in_kernel w'); [by apply Hd | done].
Qed.
End Preserves.

(** Splits a computation along its binds and branches. *)
Ltac split_computation :=
  repeat match goal with
    | |- ∀ _, _ => intro
    | |- preserves _ (_ ≫= _) => apply preserves_bind
    | |- preserves _ skip => apply preserves_skip
    | |- preserves _ (mret _) => apply preserves_ret
    | |- preserves _ (raise _) => apply preserves_raise
    | |- preserves _ (gets _) => apply preserves_gets
    | |- preserves _ (subscript _ _) => apply preserves_subscript
    | |- preserves _ (with_output _) => apply preserves_with_output
    | |- preserves _ (match ?x with _ => _ end) => destruct x eqn:?
    | |- preserves _ (if ?b then _ else _) => destruct b eqn:?
    end.

(** Runs a computation on a state given by its parts. *)
Ltac run :=
  unfold exec, result, close_widget, cleanup, __init__, handle_interaction,
    record_sample, save_btn_click, chooser_callback, reset_btn_click,
    dispatch, select_layer, with_output, subscript, spectral_to_csv,
    on_interaction, remove_control, add, clear_output, display,
    skip, mbind, M_bind, mret, M_ret, raise, gets, modify in *;
  simpl in *.

(** What is left: one assignment or one call on another object. *)
Ltac primitive :=
  try apply preserves_modify;
  try (unfold preserves, exec, add, modify, spectral_to_csv, clear_output,
         display, remove_control, on_interaction);
  intros; simpl in *; repeat (case_match; simplify_eq/=).

(** ** The key of a sample, on examples *)

Example format_4f_half : format_4f (3 # 2) = "1.5000".
Proof. reflexivity. Qed.

Example format_4f_negative_rounds_to_zero : format_4f (- (1 # 100000)) = "-0.0000".
Proof. vm_compute. reflexivity. Qed.

Example format_4f_tie_to_even :
  format_4f (1 # 32) = "0.0312" ∧ format_4f (3 # 32) = "0.0938".
Proof. split; vm_compute; reflexivity. Qed.

Example sample_key_example :
  sample_key (3412345 # 100000) (- (11812355 # 100000)) = "(34.1234 -118.1236)".
Proof. vm_compute. reflexivity. Qed.

(** ** The spectral sample mapping exists from construction on *)

Lemma handle_interaction_keeps_mapping kwargs :
  preserves has_spectral_data (handle_interaction kwargs).
Proof.
  unfold handle_interaction, record_sample. split_computation.
  all: primitive.
  all: unfold has_spectral_data in *; simpl in *; rewrite ?fmap_is_Some; eauto.
Qed.

Lemma step_keeps_mapping a : preserves has_spectral_data (step a).
Proof.
  destruct a; simpl; try apply handle_interaction_keeps_mapping.
  all: unfold dispatch, select_layer, reset_btn_click, save_btn_click,
         close_widget, chooser_callback, cleanup.
  all: split_computation; try apply handle_interaction_keeps_mapping.
  all: primitive.
  all: unfold has_spectral_data in *; simpl in *; eauto.
Qed.

(** C9.  The constructor gives the host map an empty spectral sample
    mapping when it has none and keeps the one it has; from then on the
    attribute exists, and every later operation (an interaction event, a
    layer selection, Reset, Save, the chooser callback, Close, cleanup)
    leaves it in existence, whether it returns or raises. *)
Theorem spectral_data_exists_from_construction :
  (∀ position w,
     _spectral_data (_host_map (exec (__init__ position) w))
     = Some (default ∅ (_spectral_data (_host_map w))))
  ∧ (∀ a w, has_spectral_data w → has_spectral_data (exec (step a) w)).
Proof.
  split.
  - intros position w. run.
    destruct (_spectral_data (_host_map w)) eqn:E; simpl;
      case_bool_decide; simpl; by rewrite ?E.
  - intros a w. apply step_keeps_mapping.
Qed.

Lemma spectral_data_exists_from_construction_witness :
  _spectral_data (_host_map (exec (__init__ "topright") example_session)) = Some ∅
  ∧ has_spectral_data (exec (step ResetClick) example_widget).
Proof.
  destruct spectral_data_exists_from_construction as [H1 H2].
  split.
  - apply (H1 "topright" example_session).
  - apply (H2 ResetClick example_widget). by exists ∅.
Defined.

(** C10.  The handler subscripts the coordinates before it looks at the
    event type: an event of any type that carries no coordinates raises,
    and nothing is changed; and an event whose type is not "click"
    changes nothing at all. *)
Theorem handle_interaction_coordinates_first kwargs w :
  (ev_coordinates kwargs = None →
     ∃ what, handle_interaction kwargs w = (Raised (TypeError what), w))
  ∧ (ev_type kwargs ≠ Some "click" →
     exec (handle_interaction kwargs) w = w).
Proof.
  split.
  - intros E. eexists. unfold handle_interaction. rewrite E. reflexivity.
  - intros E. unfold exec, handle_interaction, subscript.
    rewrite bool_decide_eq_false_2 by done.
    destruct (ev_coordinates kwargs) as [l|]; simpl; [|done].
    destruct (l !! 0); simpl; [|done].
    by destruct (l !! 1).
Qed.

Lemma handle_interaction_coordinates_first_witness :
  (∃ what, handle_interaction (mkEvent (Some "mousemove") None) example_widget
           = (Raised (TypeError what), example_widget))
  ∧ exec (handle_interaction
            (mkEvent (Some "mousemove") (Some [(69 # 2); - (473 # 4)])))
      example_widget = example_widget.
Proof.
  split.
  - by apply (handle_interaction_coordinates_first
                (mkEvent (Some "mousemove") None) example_widget).
  - by apply (handle_interaction_coordinates_first
                (mkEvent (Some "mousemove") (Some [(69 # 2); - (473 # 4)]))
                example_widget).
Defined.

(** Settles a decidable statement about a concrete state. *)
Ltac by_computation := apply (bool_decide_unpack _); vm_compute; exact I.

(** ** Save and the chooser callback *)

(** C2, as the code has it.  Save returns at once, changing nothing, when
    the host map has no spectral sample mapping attribute.  When the
    mapping exists, empty or not, and the widget holds its output panel,
    Save clears the panel and puts a new file chooser control on the map;
    once the panel is released (after Close) Save raises AttributeError
    and changes nothing. *)
Theorem save_btn_click_gate w :
  (_spectral_data (_host_map w) = None →
     save_btn_click w = (Returned tt, w))
  ∧ (is_Some (_spectral_data (_host_map w)) →
     is_Some (_output_widget (self w)) →
     let w' := exec save_btn_click w in
     result save_btn_click w = Returned tt
     ∧ controls (_host_map w')
       = controls (_host_map w) ++ [FileChooserControl (file_choosers w)]
     ∧ _file_chooser_control (_host_map w') = Some (file_choosers w)
     ∧ panel_items w' = [])
  ∧ (is_Some (_spectral_data (_host_map w)) →
     _output_widget (self w) = None →
     save_btn_click w = (Raised (AttributeError "clear_output"), w)).
Proof.
  split; [|split].
  - intros E. run. by rewrite E.
  - intros [d E] [o Eo]. unfold panel_items. run. by rewrite E, Eo.
  - intros [d E] Eo. run. by rewrite E, Eo.
Qed.

Lemma save_btn_click_gate_witness :
  save_btn_click (upd_host (set_spectral_data None) example_widget)
  = (Returned tt, upd_host (set_spectral_data None) example_widget)
  ∧ controls (_host_map (exec save_btn_click example_widget))
    = controls (_host_map example_widget) ++ [FileChooserControl 0]
  ∧ save_btn_click (exec cleanup example_widget)
    = (Raised (AttributeError "clear_output"), exec cleanup example_widget).
Proof.
  split; [|split].
  - apply (save_btn_click_gate (upd_host (set_spectral_data None) example_widget)).
    reflexivity.
  - apply (save_btn_click_gate example_widget); [by exists ∅|by_computation].
  - apply (save_btn_click_gate (exec cleanup example_widget));
      [by exists ∅|reflexivity].
Defined.

(** C2 fails as stated: on the widget just built the mapping is empty,
    and Save puts a file chooser control on the map. *)
Lemma save_with_empty_mapping_adds_chooser :
  _spectral_data (_host_map example_widget) = Some ∅
  ∧ (FileChooserControl 0 ∉ controls (_host_map example_widget))
  ∧ FileChooserControl 0 ∈ controls (_host_map (exec save_btn_click example_widget))
  ∧ save_btn_click example_widget ≠ (Returned tt, example_widget).
Proof.
  split; [reflexivity|].
  split; [by_computation|].
  split; [by_computation|].
  intros E.
  apply (f_equal (λ p, length (controls (_host_map p.2)))) in E.
  vm_compute in E. discriminate.
Qed.

Lemma filter_ne_absent {A} `{EqDecision A} (x : A) (l : list A) :
  x ∉ l → filter (λ y, y ≠ x) l = l.
Proof.
  induction l as [|y l IH]; [done|].
  intros Hx. apply not_elem_of_cons in Hx. destruct Hx as [Hxy Hxl].
  rewrite filter_cons_True by done. f_equal. by apply IH.
Qed.

Lemma not_elem_of_filter_ne {A} `{EqDecision A} (x : A) (l : list A) :
  x ∉ filter (λ y, y ≠ x) l.
Proof. rewrite list_elem_of_filter. by intros [? ?]. Qed.

(** C8, as the code has it.  When the chooser holds a selected path, the
    callback hands it to the host map's [spectral_to_csv] and takes off
    the map the control that the map's attribute [_file_chooser_control]
    names, the control of the chooser the latest Save opened, whichever
    chooser calls; the other controls stay.  So the calling chooser's own
    control is off the map when it is that chooser.  The callback returns
    when the map also holds the chooser.  When no path is selected it
    returns with the state unchanged. *)
Theorem chooser_callback_spec chooser w :
  let m := _host_map w in
  let m' := _host_map (exec (chooser_callback chooser) w) in
  (∀ file_path, selected chooser = Some file_path → file_path ≠ "" →
     csv_exports m' = csv_exports m ++ [file_path]
     ∧ (∀ n, _file_chooser_control m = Some n → FileChooserControl n ∉ controls m')
     ∧ controls m'
       = from_option (λ n, filter (λ c, c ≠ FileChooserControl n) (controls m))
           (controls m) (_file_chooser_control m)
     ∧ (_file_chooser_control m = Some (fc_id chooser) →
        FileChooserControl (fc_id chooser) ∉ controls m')
     ∧ (is_Some (_file_chooser m) →
        result (chooser_callback chooser) w = Returned tt))
  ∧ (selected chooser = None ∨ selected chooser = Some "" →
     chooser_callback chooser w = (Returned tt, w)).
Proof.
  simpl. split.
  - intros file_path E Hne. run. rewrite E.
    rewrite bool_decide_eq_false_2 by done. simpl.
    destruct (_file_chooser_control (_host_map w)) as [n|] eqn:En; simpl.
    2: { repeat split; done. }
    destruct (decide (FileChooserControl n ∈ controls (_host_map w))) as [Hin|Hin].
    + rewrite bool_decide_eq_true_2 by done. simpl.
      rewrite bool_decide_eq_true_2 by done.
      destruct (_file_chooser (_host_map w)) as [k|] eqn:Ek; simpl.
      all: repeat split; try done.
      all: try (intros ? [= <-]; apply not_elem_of_filter_ne).
      all: try (intros [= <-]; apply not_elem_of_filter_ne).
    + rewrite bool_decide_eq_false_2 by done. simpl.
      repeat split; try done;
        [by intros ? [= <-]|by rewrite filter_ne_absent|by intros [= <-]].
  - intros [E|E]; run; by rewrite E.
Qed.

Lemma chooser_callback_spec_witness :
  csv_exports (_host_map (exec (chooser_callback example_chooser)
                            (exec save_btn_click example_widget)))
  = ["spectral_data.csv"]
  ∧ chooser_callback (mkFileChooser 0 None) example_widget
    = (Returned tt, example_widget).
Proof.
  split.
  - apply (chooser_callback_spec example_chooser
             (exec save_btn_click example_widget)); [reflexivity|done].
  - apply (chooser_callback_spec (mkFileChooser 0 None) example_widget).
    by left.
Defined.

(** C8 fails as stated, for every invocation: after two Saves, a path
    selected in the first chooser is exported, and the control of that
    chooser is still on the map. *)
Lemma first_chooser_control_stays :
  let chooser := mkFileChooser 0 (Some "spectral_data.csv") in
  let w := exec save_btn_click (exec save_btn_click example_widget) in
  let w' := exec (chooser_callback chooser) w in
  FileChooserControl (fc_id chooser) ∈ controls (_host_map w)
  ∧ csv_exports (_host_map w') = ["spectral_data.csv"]
  ∧ FileChooserControl (fc_id chooser) ∈ controls (_host_map w').
Proof.
  simpl. split; [by_computation|]. split; [reflexivity|by_computation].
Qed.

(** ** A click on the map *)







(** ** Reset and Close *)

(** C5, as the code has it.  While the widget holds its output panel,
    Reset returns without an error whatever optional attributes the host
    map has; afterwards the sample mapping is empty and the panel shows
    nothing.  When the map has its marker cluster, the marker list and the
    cluster are empty; without the cluster attribute the marker list is
    left as it is. *)
Theorem reset_btn_click_spec w :
  is_Some (_output_widget (self w)) →
  let w' := exec reset_btn_click w in
  result reset_btn_click w = Returned tt
  ∧ samples w' = ∅
  ∧ panel_items w' = []
  ∧ (is_Some (_plot_marker_cluster (_host_map w)) →
     marker_list w' = [] ∧ cluster_markers w' = [])
  ∧ (_plot_marker_cluster (_host_map w) = None →
     _plot_markers (_host_map w') = _plot_markers (_host_map w)
     ∧ _plot_marker_cluster (_host_map w') = None).
Proof.
  intros [o Eo]. unfold samples, panel_items, marker_list, cluster_markers.
  run.
  destruct (_plot_marker_cluster (_host_map w)) eqn:Ec,
           (_spectral_data (_host_map w)) eqn:Ed; simpl;
    repeat (progress (rewrite ?Ed, ?Ec, ?Eo; simpl)).
  all: repeat split; try done; by intros [? ?].
Qed.

Lemma reset_btn_click_spec_witness :
  result reset_btn_click (exec (handle_interaction example_click) example_widget)
  = Returned tt
  ∧ samples (exec reset_btn_click
               (exec (handle_interaction example_click) example_widget)) = ∅
  ∧ marker_list (exec reset_btn_click
                   (exec (handle_interaction example_click) example_widget)) = [].
Proof.
  destruct (reset_btn_click_spec
              (exec (handle_interaction example_click) example_widget))
    as (H1 & H2 & _ & H3 & _).
  - by_computation.
  - split; [exact H1|]. split; [exact H2|]. apply H3. by_computation.
Defined.

(** C5 fails as stated, for every widget state: after Close the panel is
    released and Reset raises; and on a map that holds markers but no
    marker cluster Reset returns and leaves the marker list as it is. *)
Lemma reset_raises_after_close_and_keeps_unclustered_markers :
  result reset_btn_click (exec cleanup example_widget)
  = Raised (AttributeError "clear_output")
  ∧ (let w := upd_host (set_plot_marker_cluster None)
                (upd_host (set_plot_markers (Some [[(69 # 2); - (473 # 4)]]))
                   example_widget) in
     result reset_btn_click w = Returned tt
     ∧ marker_list (exec reset_btn_click w) = [[(69 # 2); - (473 # 4)]]).
Proof. by vm_compute. Qed.

(** Close on an active widget returns and leaves it closed. *)
Lemma cleanup_closes w :
  Active w → result cleanup w = Returned tt ∧ Closed (exec cleanup w).
Proof.
  intros (Hh & Eoc & Hoc & Esc & Hsc & [o Eo]). unfold Closed.
  run. rewrite Eoc, Esc, Eo. simpl.
  rewrite bool_decide_eq_true_2 by done. simpl.
  rewrite bool_decide_eq_true_2 by (by apply list_elem_of_filter). simpl.
  destruct (_spectral_widget (self w)) as [[]|] eqn:Esw,
           (_plot_marker_cluster (_host_map w)) eqn:Ec,
           (_spectral_data (_host_map w)) eqn:Ed,
           (on_close (self w)) eqn:Eon; simpl;
    repeat (progress (rewrite ?Ed, ?Ec, ?Eon, ?Esw; simpl)).
  all: split; [done|].
  all: split; [apply not_elem_of_filter_ne|].
  all: split; [rewrite !list_elem_of_filter; by intros (_ & ? & _)|].
  all: apply not_elem_of_filter_ne.
Qed.

(** C3, as the code has it.  On an active widget (the handler subscribed,
    both controls on the map, the panel held) Close returns and leaves the
    click handler unsubscribed, the output control and the spectral
    control off the map, the handles released, the sample mapping empty
    and the completion callback, when one is set, run once more.  When the
    map has its marker cluster, the marker list and the cluster are empty;
    without the cluster attribute the marker list is left as it is. *)
Theorem cleanup_spec w :
  Active w →
  let w' := exec cleanup w in
  result cleanup w = Returned tt
  ∧ (WidgetHandler ∉ interaction_callbacks (_host_map w'))
  ∧ (OutputControl ∉ controls (_host_map w'))
  ∧ (SpectralControl ∉ controls (_host_map w'))
  ∧ _output_widget (self w') = None
  ∧ _spectral_control (self w') = None
  ∧ _spectral_widget (self w') = None
  ∧ (is_Some (_plot_marker_cluster (_host_map w)) →
     marker_list w' = [] ∧ cluster_markers w' = [])
  ∧ (_plot_marker_cluster (_host_map w) = None →
     _plot_markers (_host_map w') = _plot_markers (_host_map w))
  ∧ samples w' = ∅
  ∧ on_close_calls w'
    = on_close_calls w ++ from_option (λ callback, [callback]) [] (on_close (self w)).
Proof.
  intros (Hh & Eoc & Hoc & Esc & Hsc & [o Eo]).
  unfold samples, marker_list, cluster_markers.
  run. rewrite Eoc, Esc, Eo. simpl.
  rewrite bool_decide_eq_true_2 by done. simpl.
  rewrite bool_decide_eq_true_2 by (by apply list_elem_of_filter). simpl.
  destruct (_spectral_widget (self w)) as [[]|] eqn:Esw,
           (_plot_marker_cluster (_host_map w)) eqn:Ec,
           (_spectral_data (_host_map w)) eqn:Ed,
           (on_close (self w)) eqn:Eon; simpl;
    repeat (progress (rewrite ?Ed, ?Ec, ?Eon, ?Esw; simpl)).
  all: split; [done|].
  all: split; [apply not_elem_of_filter_ne|].
  all: split; [rewrite !list_elem_of_filter; by intros (_ & ? & _)|].
  all: split; [apply not_elem_of_filter_ne|].
  all: repeat split; rewrite ?app_nil_r; try done; by intros [? ?].
Qed.

Lemma cleanup_spec_witness :
  result cleanup example_widget = Returned tt
  ∧ on_close_calls (exec cleanup example_widget) = [7].
Proof.
  destruct (cleanup_spec example_widget)
    as (H1 & _ & _ & _ & _ & _ & _ & _ & _ & _ & H2).
  - by_computation.
  - split; [exact H1|exact H2].
Defined.

(** C3 fails as stated, for every widget state: on the widget already
    closed, whose completion callback is set, Close raises at the removal
    of the output control, which is off the map, and does not run the
    callback. *)
Lemma second_close_skips_on_close :
  let w := exec cleanup example_widget in
  on_close (self w) = Some 7
  ∧ result cleanup w = Raised (ControlException OutputControl)
  ∧ on_close_calls (exec cleanup w) = on_close_calls w.
Proof. by vm_compute. Qed.

Ltac membership :=
  repeat match goal with
    | H : bool_decide _ = false |- _ => apply bool_decide_eq_false in H
    | H : bool_decide _ = true |- _ => apply bool_decide_eq_true in H
    end;
  rewrite ?list_elem_of_filter; intuition congruence.

Lemma cleanup_returned w w1 :
  cleanup w = (Returned tt, w1) → cleaned_up w w1.
Proof.
  intros E1. run.
  repeat (case_match; simplify_eq/=).
  all: unfold cleaned_up; simpl.
  all: split; [congruence|].
  all: split; [congruence|].
  all: split; [intros ? ?; simplify_eq; split; (done || membership)|].
  all: split; [intros ? ?; by simplify_eq|].
  all: split; [congruence|].
  all: split; [by (left + right)|by (left + right)].
Qed.

Lemma cleanup_again w w1 :
  cleaned_up w w1 →
  guarded_references (exec cleanup w1) = guarded_references w1
  ∧ (result cleanup w1 = Returned tt
     ∨ ∃ c, _output_control (self w) = Some c
            ∧ strict_controls (_host_map w) = true
            ∧ result cleanup w1 = Raised (ControlException c)).
Proof.
  intros (Eoc & Est & Hoc & Hout & Esc & Hcl & Hsd).
  unfold guarded_references. run. rewrite Esc, Eoc. simpl.
  destruct (_output_control (self w)) as [c|] eqn:Ec; simpl.
  - destruct (Hoc c eq_refl) as [Hc Eow].
    rewrite bool_decide_eq_false_2 by done. rewrite Est.
    destruct (strict_controls (_host_map w)); simpl.
    + rewrite Esc. split; [done|]. right. by exists c.
    + rewrite Eow. simpl.
      destruct Hcl as [Ecl|[Ecl Epm]], Hsd as [Esd|Esd],
               (on_close (self w1)) eqn:Eon; simpl;
        repeat (progress (rewrite ?Ecl, ?Epm, ?Esd, ?Eow, ?Eon, ?Esc; simpl));
        (split; [done|by left]).
  - destruct (_output_widget (self w1)) as [[items cl]|] eqn:Eow; simpl.
    + specialize (Hout _ eq_refl). simpl in Hout. subst items.
      destruct Hcl as [Ecl|[Ecl Epm]], Hsd as [Esd|Esd],
               (on_close (self w1)) eqn:Eon; simpl;
        repeat (progress (rewrite ?Ecl, ?Epm, ?Esd, ?Eow, ?Eon, ?Esc; simpl));
        (split; [done|by left]).
    + destruct Hcl as [Ecl|[Ecl Epm]], Hsd as [Esd|Esd],
               (on_close (self w1)) eqn:Eon; simpl;
        repeat (progress (rewrite ?Ecl, ?Epm, ?Esd, ?Eow, ?Eon, ?Esc; simpl));
        (split; [done|by left]).
Qed.

(** C7.  After a first call of cleanup that returned, a second call finds
    the guarded references (the attributes of the host map tested with
    hasattr and the handles the first call set to None) as the first left
    them and leaves them so: it raises neither on a missing attribute nor
    on a released handle.  It returns, unless the map rejects the removal
    of the output control, whose handle the first call kept: then it
    raises that rejection. *)
Theorem cleanup_twice w :
  result cleanup w = Returned tt →
  let w1 := exec cleanup w in
  let w2 := exec cleanup w1 in
  guarded_references w2 = guarded_references w1
  ∧ (result cleanup w1 = Returned tt
     ∨ ∃ c, _output_control (self w) = Some c
            ∧ strict_controls (_host_map w) = true
            ∧ result cleanup w1 = Raised (ControlException c)).
Proof.
  intros Hres. simpl. apply cleanup_again, cleanup_returned.
  unfold result, exec in *. destruct (cleanup w) as [r w1]; simpl in *.
  by subst r.
Qed.

Lemma cleanup_twice_witness :
  guarded_references (exec cleanup (exec cleanup example_widget))
  = guarded_references (exec cleanup example_widget)
  ∧ result cleanup (exec cleanup example_widget)
    = Raised (ControlException OutputControl).
Proof.
  destruct (cleanup_twice example_widget) as [H1 H2].
  - reflexivity.
  - split; [exact H1|reflexivity].
Defined.

(** ** The two states of the widget *)

Ltac controls_and_callbacks :=
  repeat match goal with
    | H : bool_decide _ = false |- _ => apply bool_decide_eq_false in H
    | H : bool_decide _ = true |- _ => apply bool_decide_eq_true in H
    end;
  rewrite ?elem_of_app, ?list_elem_of_filter, ?list_elem_of_singleton;
  intuition (eauto; congruence).

Lemma init_active position w : Active (exec (__init__ position) w).
Proof.
  unfold Active. run.
  destruct (_spectral_data (_host_map w)); simpl; case_bool_decide; simpl.
  all: repeat split; eauto; controls_and_callbacks.
Qed.

Lemma handle_interaction_keeps_active kwargs :
  preserves Active (handle_interaction kwargs).
Proof.
  unfold handle_interaction, record_sample. split_computation.
  all: primitive.
  all: unfold Active in *; simpl in *; controls_and_callbacks.
Qed.

Lemma step_keeps_active a :
  closes a = false → preserves Active (step a).
Proof.
  destruct a; simpl; try done; intros _.
  all: unfold dispatch, select_layer, reset_btn_click, save_btn_click,
         chooser_callback.
  all: split_computation; try apply handle_interaction_keeps_active.
  all: primitive.
  all: unfold Active in *; simpl in *; controls_and_callbacks.
Qed.

Lemma handle_interaction_keeps_closed kwargs :
  preserves Closed (handle_interaction kwargs).
Proof.
  unfold handle_interaction, record_sample. split_computation.
  all: primitive.
  all: unfold Closed in *; simpl in *; controls_and_callbacks.
Qed.

Lemma step_keeps_closed a : preserves Closed (step a).
Proof.
  destruct a; simpl.
  all: unfold dispatch, select_layer, reset_btn_click, save_btn_click,
         chooser_callback, close_widget, cleanup.
  all: split_computation; try apply handle_interaction_keeps_closed.
  all: primitive.
  all: unfold Closed in *; simpl in *; controls_and_callbacks.
Qed.

Lemma closed_ignores_interaction kwargs w :
  Closed w → step (Interaction kwargs) w = (Returned tt, w).
Proof.
  intros (Hh & _). simpl. unfold dispatch. run.
  by rewrite bool_decide_eq_false_2.
Qed.

Lemma handle_interaction_keeps_markers_tracked kwargs :
  preserves markers_tracked (handle_interaction kwargs).
Proof.
  intros w Hw. unfold markers_tracked, marker_list in *. run.
  repeat (case_match; simplify_eq/=); try done; eauto.
  all: intros _;
    match goal with H : _plot_markers _ = Some _ |- _ => rewrite H end;
    simpl; auto.
Qed.

Lemma step_keeps_markers_tracked a : preserves markers_tracked (step a).
Proof.
  destruct a; simpl.
  all: unfold dispatch, select_layer, reset_btn_click, save_btn_click,
         chooser_callback, close_widget, cleanup.
  all: split_computation; try apply handle_interaction_keeps_markers_tracked.
  all: primitive.
  all: unfold markers_tracked, marker_list in *; simpl in *; try done; eauto.
Qed.

Lemma init_keeps_markers_tracked position : preserves markers_tracked (__init__ position).
Proof.
  unfold __init__. split_computation.
  all: primitive.
  all: unfold markers_tracked, marker_list in *; simpl in *; try done; eauto.
Qed.

(** The marker list holds nothing without a marker cluster: true of the
    widget built on a host of which it is true, and kept by every action. *)
Lemma markers_tracked_invariant :
  (∀ position w, markers_tracked w → markers_tracked (exec (__init__ position) w))
  ∧ (∀ a w, markers_tracked w → markers_tracked (exec (step a) w)).
Proof.
  split.
  - intros position. apply init_keeps_markers_tracked.
  - intros a. apply step_keeps_markers_tracked.
Qed.

(** C6.  The widget has two states.  The constructor leaves it active:
    the handler subscribed, both controls on the map.  Every action but
    Close and cleanup keeps an active widget active; Close and cleanup
    return on an active widget and leave it closed: the handler
    unsubscribed, both controls off the map.  No action takes a closed
    widget out of that state, and the map hands a closed widget no
    interaction event: a click changes nothing, neither the panel nor the
    sample mapping. *)
Theorem widget_two_states :
  (∀ position w, Active (exec (__init__ position) w))
  ∧ (∀ a w, Active w → closes a = false → Active (exec (step a) w))
  ∧ (∀ a w, Active w → closes a = true →
       result (step a) w = Returned tt ∧ Closed (exec (step a) w))
  ∧ (∀ a w, Closed w → Closed (exec (step a) w))
  ∧ (∀ kwargs w, Closed w → step (Interaction kwargs) w = (Returned tt, w)).
Proof.
  split; [apply init_active|].
  split; [intros a w Hw Ha; by apply step_keeps_active|].
  split.
  { intros a w Hw Ha.
    assert (step a = cleanup) as -> by (by destruct a).
    by apply cleanup_closes. }
  split; [intros a w Hw; by apply step_keeps_closed|].
  apply closed_ignores_interaction.
Qed.

Lemma widget_two_states_witness :
  Active example_widget
  ∧ Active (exec (step SaveClick) example_widget)
  ∧ Closed (exec (step CloseClick) example_widget)
  ∧ Closed (exec (step ResetClick) (exec (step CloseClick) example_widget))
  ∧ step (Interaction example_click) (exec (step CloseClick) example_widget)
    = (Returned tt, exec (step CloseClick) example_widget).
Proof.
  destruct widget_two_states as (_ & H2 & H3 & H4 & H5).
  assert (Ha : Active example_widget) by by_computation.
  assert (Hc : Closed (exec (step CloseClick) example_widget))
    by (by apply H3).
  split; [exact Ha|].
  split; [by apply H2|].
  split; [exact Hc|].
  split; [by apply H4|by apply H5].
Defined.

(** ** The wavelengths entry *)

Lemma sample_key_not_wavelengths lat lon : sample_key lat lon ≠ "wavelengths".
Proof. unfold sample_key. simpl. discriminate. Qed.

Lemma handle_interaction_keeps_wavelengths kwargs values :
  preserves (λ w, samples w !! "wavelengths" = Some values)
    (handle_interaction kwargs).
Proof.
  intros w Hw. unfold samples in *. run.
  repeat (case_match; simplify_eq/=); try done.
  all: repeat match goal with
         | H : bool_decide _ = false |- _ => apply bool_decide_eq_false in H
         | H : _spectral_data _ = Some _ |- _ => rewrite H in *; simpl in *
         end.
  all: try (by rewrite lookup_insert_ne by apply sample_key_not_wavelengths).
  all: try (exfalso; eauto; fail).
Qed.

Lemma handle_interaction_writes_wavelengths kwargs w values :
  samples w !! "wavelengths" = None →
  samples (exec (handle_interaction kwargs) w) !! "wavelengths" = Some values →
  ev_type kwargs = Some "click"
  ∧ ∃ name layer ds,
      layers_value (self w) = Some name
      ∧ dict_get name (cog_layer_dict (_host_map w)) = Some layer
      ∧ xds layer = Some ds
      ∧ ds_wavelengths ds = Some values.
Proof.
  intros Hw Hw'. unfold samples in *. run.
  repeat (case_match; simplify_eq/=); try congruence.
  all: repeat match goal with
         | H : bool_decide _ = false |- _ => apply bool_decide_eq_false in H
         | H : bool_decide _ = true |- _ => apply bool_decide_eq_true in H
         | H : _spectral_data _ = Some _ |- _ => rewrite H in *; simpl in *
         end.
  all: rewrite lookup_insert_ne in Hw' by apply sample_key_not_wavelengths.
  all: try (rewrite Hw in *; by destruct_and?; match goal with H : is_Some None |- _ => destruct H end).
  all: rewrite lookup_insert_eq in Hw'; simplify_eq.
  all: split; [done|].
  all: destruct (layers_value (self _)) as [name|]; simplify_eq/=; eauto 10.
Qed.

(** C4.  Over any sequence of interaction events the wavelengths entry of
    the sample mapping, once there, stays the array it is: no later event
    writes it again.  It gets there only by a click, on a mapping that
    lacks it, and then holds the wavelengths of the dataset of the layer
    selected at that click; a click that reaches the dataset does write
    it. *)
Theorem wavelengths_written_once :
  (∀ events w values,
     samples w !! "wavelengths" = Some values →
     samples (after_events events w) !! "wavelengths" = Some values)
  ∧ (∀ kwargs w values,
       samples w !! "wavelengths" = None →
       samples (exec (handle_interaction kwargs) w) !! "wavelengths" = Some values →
       ev_type kwargs = Some "click"
       ∧ ∃ name layer ds,
           layers_value (self w) = Some name
           ∧ dict_get name (cog_layer_dict (_host_map w)) = Some layer
           ∧ xds layer = Some ds
           ∧ ds_wavelengths ds = Some values)
  ∧ (∀ kwargs w lat lon ds da values,
       click_reaches kwargs w lat lon ds da →
       samples w !! "wavelengths" = None →
       ds_wavelengths ds = Some values →
       samples (exec (handle_interaction kwargs) w) !! "wavelengths" = Some values).
Proof.
  split; [|split].
  - intros events. induction events as [|kwargs events IH]; intros w values Hw.
    + done.
    + simpl. apply IH. by apply handle_interaction_keeps_wavelengths.
  - apply handle_interaction_writes_wavelengths.
  - intros kwargs w lat lon ds da values
      (Ety & [rest Eco] & [o Eo] & [cm Ecm] & (name & layer & Eln & Ely & Exds)
       & Esel & [d Ed]) Hw Hv.
    unfold samples in *. run.
    rewrite Eco, Ed in *. simpl in *.
    rewrite bool_decide_eq_true_2 by done. simpl.
    rewrite Eo. simpl.
    destruct (_plot_markers (_host_map w)) as [ms|] eqn:Ems; simpl;
      rewrite ?Ems, Ecm; simpl; rewrite Eln; simpl;
      rewrite Ely, Exds, Esel, Ed; simpl.
    all: rewrite bool_decide_eq_false_2 by (rewrite Hw; by intros [? ?]).
    all: rewrite Hv; simpl.
    all: destruct (da_dim0_coord da) as [coord|]; simpl; rewrite ?Eo; simpl.
    all: destruct (in_kernel w); simpl; rewrite ?Ed; simpl.
    all: rewrite lookup_insert_ne by apply sample_key_not_wavelengths.
    all: by rewrite lookup_insert_eq.
Qed.

Lemma wavelengths_written_once_witness :
  samples (after_events [example_click; example_click]
             (exec (handle_interaction example_click) example_widget))
    !! "wavelengths" = Some 2%positive.
Proof.
  destruct wavelengths_written_once as (H1 & _ & _).
  apply H1. reflexivity.
Defined.

(** ** More on a click: coordinates, markers, lookups that fail *)

(** X1.  A coordinates payload with fewer than two entries raises
    IndexError, for every event type, and changes nothing. *)
Theorem handle_interaction_short_coordinates kwargs w latlon :
  ev_coordinates kwargs = Some latlon →
  length latlon < 2 →
  handle_interaction kwargs w = (Raised IndexError, w).
Proof.
  intros E Hlen. run. rewrite E.
  destruct latlon as [|lat [|lon rest]]; simpl in *; [done|done|lia].
Qed.

Lemma handle_interaction_short_coordinates_witness :
  handle_interaction (mkEvent (Some "click") (Some [(69 # 2)])) example_widget
  = (Raised IndexError, example_widget).
Proof.
  apply (handle_interaction_short_coordinates _ _ [(69 # 2)]); [reflexivity|simpl; lia].
Defined.

(** X2.  A click on a map that has its marker cluster appends one marker,
    at the coordinates of the click, to the marker list (created empty
    when the map has none) and gives the cluster that whole list, whatever
    the cluster held and whether or not the dataset lookup that follows
    succeeds. *)
Theorem click_appends_marker kwargs w latlon lat lon :
  click_at kwargs w latlon lat lon →
  is_Some (_plot_marker_cluster (_host_map w)) →
  let w' := exec (handle_interaction kwargs) w in
  _plot_markers (_host_map w') = Some (marker_list w ++ [latlon])
  ∧ _plot_marker_cluster (_host_map w') = Some (marker_list w ++ [latlon]).
Proof.
  intros (Ety & Eco & E0 & E1 & [o Eo]) [cm Ecm].
  unfold marker_list. run. rewrite Eco. simpl. rewrite E0, E1. simpl.
  rewrite bool_decide_eq_true_2 by done. simpl. rewrite Eo. simpl.
  destruct (_plot_markers (_host_map w)) as [ms|] eqn:Ems; simpl;
    rewrite ?Ems, Ecm; simpl.
  all: repeat (case_match; simplify_eq/=); done.
Qed.

Lemma click_appends_marker_witness :
  marker_list (exec (handle_interaction example_click)
                 (exec (handle_interaction example_click) example_widget))
  = [[(69 # 2); - (473 # 4)]; [(69 # 2); - (473 # 4)]].
Proof.
  destruct (click_appends_marker example_click
              (exec (handle_interaction example_click) example_widget)
              [(69 # 2); - (473 # 4)] (69 # 2) (- (473 # 4))) as [H1 _].
  - unfold click_at. repeat split; vm_compute; eauto.
  - vm_compute. eauto.
  - unfold marker_list at 1. by rewrite H1.
Defined.

(** X3.  A click on a map without marker cluster records nothing: the
    sample mapping, the buffers and the markers stay as they are.  Outside
    a kernel the handler raises AttributeError; in a kernel the panel
    shows the traceback instead and the handler returns. *)
Theorem click_without_cluster kwargs w latlon lat lon :
  click_at kwargs w latlon lat lon →
  _plot_marker_cluster (_host_map w) = None →
  let w' := exec (handle_interaction kwargs) w in
  _spectral_data (_host_map w') = _spectral_data (_host_map w)
  ∧ memory w' = memory w
  ∧ marker_list w' = marker_list w
  ∧ _plot_marker_cluster (_host_map w') = None
  ∧ result (handle_interaction kwargs) w
    = (if in_kernel w then Returned tt
       else Raised (AttributeError "_plot_marker_cluster"))
  ∧ panel_items w'
    = (if in_kernel w
       then [Traceback (AttributeError "_plot_marker_cluster")] else []).
Proof.
  intros (Ety & Eco & E0 & E1 & [o Eo]) Ecm.
  unfold marker_list, panel_items. run. rewrite Eco. simpl. rewrite E0, E1. simpl.
  rewrite bool_decide_eq_true_2 by done. simpl. rewrite Eo. simpl.
  destruct (_plot_markers (_host_map w)) as [ms|] eqn:Ems; simpl;
    rewrite ?Ems, Ecm; simpl.
  all: destruct (in_kernel w); simpl; rewrite ?Ems; done.
Qed.

Lemma click_without_cluster_witness :
  let w := upd_host (set_plot_marker_cluster None) example_widget in
  samples (exec (handle_interaction example_click) w) = ∅
  ∧ panel_items (exec (handle_interaction example_click) w)
    = [Traceback (AttributeError "_plot_marker_cluster")].
Proof.
  simpl.
  destruct (click_without_cluster example_click
              (upd_host (set_plot_marker_cluster None) example_widget)
              [(69 # 2); - (473 # 4)] (69 # 2) (- (473 # 4)))
    as (H1 & _ & _ & _ & _ & H2).
  - unfold click_at. repeat split; vm_compute; eauto.
  - reflexivity.
  - split; [|exact H2]. unfold samples. by rewrite H1.
Defined.

(** X4.  When the dataset lookup of a click fails (no layer selected, the
    layer not registered, no dataset under "xds", or the selection
    raising), the click has already put its marker on the map, but it
    records no sample and touches no buffer. *)
Theorem click_without_dataset kwargs w latlon lat lon :
  click_at kwargs w latlon lat lon →
  is_Some (_plot_marker_cluster (_host_map w)) →
  selected_reflectance w lat lon = None →
  let w' := exec (handle_interaction kwargs) w in
  _spectral_data (_host_map w') = _spectral_data (_host_map w)
  ∧ memory w' = memory w
  ∧ marker_list w' = marker_list w ++ [latlon]
  ∧ (in_kernel w = false →
     ∃ e, result (handle_interaction kwargs) w = Raised e).
Proof.
  intros (Ety & Eco & E0 & E1 & [o Eo]) [cm Ecm] Hsel.
  unfold marker_list, selected_reflectance in *.
  run. rewrite Eco. simpl. rewrite E0, E1. simpl.
  rewrite bool_decide_eq_true_2 by done. simpl. rewrite Eo. simpl.
  destruct (_plot_markers (_host_map w)) as [ms|] eqn:Ems; simpl;
    rewrite ?Ems, Ecm; simpl.
  all: destruct (layers_value (self w)) as [name|]; simpl in *;
    [destruct (dict_get name (cog_layer_dict (_host_map w))) as [layer|]; simpl in *;
      [destruct (xds layer) as [ds|]; simpl in *; [rewrite Hsel|]|]|].
  all: destruct (in_kernel w) eqn:Ek; simpl;
    repeat (progress (rewrite ?Ek, ?Ems; simpl)).
  all: repeat split; try done; eauto.
Qed.

Lemma click_without_dataset_witness :
  let w := upd_self (set_layers_value (Some "PACE")) example_widget in
  samples (exec (handle_interaction example_click) w) = ∅
  ∧ marker_list (exec (handle_interaction example_click) w)
    = [[(69 # 2); - (473 # 4)]].
Proof.
  simpl.
  destruct (click_without_dataset example_click
              (upd_self (set_layers_value (Some "PACE")) example_widget)
              [(69 # 2); - (473 # 4)] (69 # 2) (- (473 # 4)))
    as (H1 & _ & H2 & _).
  - unfold click_at. repeat split; vm_compute; eauto.
  - vm_compute. eauto.
  - reflexivity.
  - split; [|exact H2]. unfold samples. by rewrite H1.
Defined.


(** ** A widget without layers; what a click does to the buffers *)

Lemma handle_interaction_without_layer kwargs w :
  layers_value (self w) = None →
  let w' := exec (handle_interaction kwargs) w in
  layers_value (self w') = None
  ∧ _spectral_data (_host_map w') = _spectral_data (_host_map w)
  ∧ memory w' = memory w.
Proof.
  intros El. run.
  repeat (case_match; simplify_eq/=); try done.
  all: match goal with H : layers_value _ ≫= _ = Some _ |- _ =>
         rewrite El in H; discriminate end.
Qed.

(** X5.  Built on a map with no registered layer, the widget has no layer
    selected, and no sequence of interaction events ever records a sample
    or touches a buffer. *)
Theorem no_layers_no_samples position w0 events :
  cog_layer_dict (_host_map w0) = [] →
  let w := exec (__init__ position) w0 in
  layers_value (self w) = None
  ∧ _spectral_data (_host_map (after_events events w)) = _spectral_data (_host_map w)
  ∧ memory (after_events events w) = memory w.
Proof.
  intros E. simpl.
  assert (El : layers_value (self (exec (__init__ position) w0)) = None).
  { run. rewrite E. simpl.
    destruct (_spectral_data (_host_map w0)); simpl; by case_bool_decide. }
  split; [done|].
  generalize dependent (exec (__init__ position) w0). clear.
  induction events as [|kwargs events IH]; intros w El; [done|].
  simpl. destruct (handle_interaction_without_layer kwargs w El) as (El' & Ed & Em).
  destruct (IH _ El') as [IH1 IH2]. split; congruence.
Qed.

Lemma no_layers_no_samples_witness :
  _spectral_data
    (_host_map (after_events [example_click; example_click]
                  (exec (__init__ "topright") example_session_without_layers)))
  = Some ∅.
Proof.
  destruct (no_layers_no_samples "topright" example_session_without_layers
              [example_click; example_click]) as (_ & H & _).
  - reflexivity.
  - rewrite H. reflexivity.
Defined.

Lemma mask_negative_idemp xs : mask_negative (mask_negative xs) = mask_negative xs.
Proof.
  unfold mask_negative. rewrite map_map. apply map_ext.
  intros x. unfold mask_cell. destruct (lt_zero x) eqn:E; [done|by rewrite E].
Qed.

(** X6.  Whatever the event, the handler leaves each buffer as it is or
    with its negative cells turned to NaN: no buffer is resized, and no
    cell that is not negative changes. *)
Theorem handle_interaction_only_masks kwargs w l :
  let w' := exec (handle_interaction kwargs) w in
  (read (memory w') l = read (memory w) l
   ∨ read (memory w') l = mask_negative (read (memory w) l))
  ∧ length (read (memory w') l) = length (read (memory w) l)
  ∧ (∀ i x, read (memory w) l !! i = Some x → lt_zero x = false →
       read (memory w') l !! i = Some x).
Proof.
  simpl.
  assert (H : read (memory (exec (handle_interaction kwargs) w)) l = read (memory w) l
              ∨ read (memory (exec (handle_interaction kwargs) w)) l
                = mask_negative (read (memory w) l)).
  { unfold read. run.
    repeat (case_match; simplify_eq/=); try (by left).
    all: match goal with |- context [alter _ ?k _ !! ?j] =>
           destruct (decide (k = j)) as [E|Hne];
             [rewrite E, lookup_alter_eq; right; by destruct (memory _ !! j)
             |rewrite lookup_alter_ne by done; by left]
         end. }
  split; [exact H|].
  destruct H as [->| ->]; [by split|].
  unfold mask_negative. split; [by rewrite length_map|].
  intros i x Hi Hx. rewrite list_lookup_fmap, Hi. simpl.
  unfold mask_cell. by rewrite Hx.
Qed.

Lemma handle_interaction_only_masks_witness :
  read (memory (exec (handle_interaction example_click) example_widget)) 2%positive
  !! 0%nat = Some (Finite 400).
Proof.
  apply (handle_interaction_only_masks example_click example_widget 2%positive);
    reflexivity.
Defined.

(** ** Clicking the same point again *)

(** Checks [click_reaches] for the example click on a concrete state. *)
Ltac example_click_reaches :=
  unfold click_reaches;
  split; [reflexivity|];
  split; [by exists []|];
  split; [by_computation|];
  split; [by_computation|];
  split; [exists "EMIT", {| xds := Some example_dataset |}; by repeat split|];
  split; [reflexivity|by_computation].


(** What a click that reaches the reflectance leaves, field by field. *)
Lemma click_effect kwargs w lat lon ds da d :
  click_reaches kwargs w lat lon ds da →
  _spectral_data (_host_map w) = Some d →
  (d !! "wavelengths" = None → is_Some (ds_wavelengths ds)) →
  let w' := exec (handle_interaction kwargs) w in
  let d1 := match d !! "wavelengths" with
            | Some _ => d
            | None => from_option (λ v, <["wavelengths" := v]> d) d (ds_wavelengths ds)
            end in
  _spectral_data (_host_map w') = Some (<[sample_key lat lon := da_values da]> d1)
  ∧ is_Some (d1 !! "wavelengths")
  ∧ memory w' = match da_dim0_coord da with
                | Some _ => alter mask_negative (da_values da) (memory w)
                | None => memory w
                end
  ∧ marker_list w' = marker_list w ++ [default [] (ev_coordinates kwargs)]
  ∧ click_reaches kwargs w' lat lon ds da.
Proof.
  intros (Ety & [rest Eco] & [o Eo] & [cm Ecm] & (name & layer & Eln & Ely & Exds)
          & Esel & _) Ed Hwl.
  unfold click_reaches, marker_list. run.
  rewrite Eco. simpl.
  rewrite bool_decide_eq_true_2 by done. simpl.
  rewrite Eo. simpl.
  destruct (_plot_markers (_host_map w)) as [ms|] eqn:Ems; simpl;
    rewrite ?Ems, Ecm; simpl; rewrite Eln; simpl; rewrite Ely, Exds, Esel, Ed; simpl.
  all: destruct (d !! "wavelengths") as [v0|] eqn:Ew; simpl;
    [rewrite ?bool_decide_eq_true_2 by eauto
    |rewrite ?bool_decide_eq_false_2 by (by intros [? ?]);
     destruct (Hwl eq_refl) as [v Ev]; rewrite Ev]; simpl.
  all: destruct (da_dim0_coord da) as [coord|] eqn:Eax; simpl; rewrite ?Eo; simpl.
  all: destruct (in_kernel w) eqn:Ek; simpl;
    repeat (progress (rewrite ?Ed, ?Ems, ?Eln, ?Ely, ?Eco, ?Eo, ?Ecm; simpl)).
  all: rewrite ?lookup_insert_eq, ?Ew.
  all: repeat split; eauto 10.
Qed.

(** X7.  A second click at a point already sampled changes neither the
    sample mapping nor any buffer: it stores the same array under the same
    key, and masking what is masked changes nothing.  It does add a second
    marker. *)
Theorem click_again_same_sample kwargs w lat lon ds da :
  click_reaches kwargs w lat lon ds da →
  (samples w !! "wavelengths" = None → is_Some (ds_wavelengths ds)) →
  let w1 := exec (handle_interaction kwargs) w in
  let w2 := exec (handle_interaction kwargs) w1 in
  samples w2 = samples w1
  ∧ memory w2 = memory w1
  ∧ length (marker_list w2) = S (length (marker_list w1)).
Proof.
  intros Hr Hwl. simpl.
  assert (Hd : is_Some (_spectral_data (_host_map w))) by apply Hr.
  destruct Hd as [d Ed]. unfold samples in *. rewrite Ed in Hwl. simpl in Hwl.
  destruct (click_effect _ _ _ _ _ _ _ Hr Ed Hwl) as (Ed1 & Hw1 & Em1 & _ & Hr1).
  set (d1 := match d !! "wavelengths" with
             | Some _ => d
             | None => from_option (λ v, <["wavelengths" := v]> d) d (ds_wavelengths ds)
             end) in *.
  assert (Hw1' : is_Some (<[sample_key lat lon := da_values da]> d1 !! "wavelengths")).
  { by rewrite lookup_insert_ne by apply sample_key_not_wavelengths. }
  destruct (click_effect _ _ _ _ _ _ _ Hr1 Ed1) as (Ed2 & _ & Em2 & Hm2 & _).
  { intros E. rewrite E in Hw1'. by destruct Hw1'. }
  destruct Hw1' as [v Ev]. rewrite Ev in Ed2.
  rewrite Ed2, Ed1, Em2, Em1, Hm2. simpl.
  split; [by rewrite insert_insert_eq|].
  split; [|rewrite length_app; simpl; lia].
  destruct (da_dim0_coord da); [|done].
  rewrite alter_alter_eq. apply alter_ext.
  intros xs _. apply mask_negative_idemp.
Qed.

Lemma click_again_same_sample_witness :
  samples (exec (handle_interaction example_click)
             (exec (handle_interaction example_click) example_widget))
  = samples (exec (handle_interaction example_click) example_widget).
Proof.
  destruct (click_again_same_sample example_click example_widget
              (69 # 2) (- (473 # 4)) example_dataset
              (mkDataArray 1%positive (Some 2%positive))) as [H _].
  - example_click_reaches.
  - intros _. by exists 2%positive.
  - exact H.
Defined.


(** X18.  A click that reaches a reflectance with no dimension left (the
    dataset has no spectral axis) stores the selected array under the key
    of the point and then fails at the masking, before any cell is
    written: no buffer changes and nothing is plotted.  Outside a kernel
    the handler raises IndexError; in a kernel the panel shows the
    traceback and the handler returns. *)
Theorem click_on_scalar_selection kwargs w lat lon ds da :
  click_reaches kwargs w lat lon ds da →
  (samples w !! "wavelengths" = None → is_Some (ds_wavelengths ds)) →
  da_dim0_coord da = None →
  let w' := exec (handle_interaction kwargs) w in
  samples w' !! sample_key lat lon = Some (da_values da)
  ∧ memory w' = memory w
  ∧ result (handle_interaction kwargs) w
    = (if in_kernel w then Returned tt else Raised IndexError)
  ∧ panel_items w' = (if in_kernel w then [Traceback IndexError] else []).
Proof.
  intros (Ety & [rest Eco] & [o Eo] & [cm Ecm] & (name & layer & Eln & Ely & Exds)
          & Esel & [d Ed]) Hwl Eax.
  unfold samples, panel_items in *. run.
  rewrite Eco, Ed in *. simpl in *.
  rewrite bool_decide_eq_true_2 by done. simpl.
  rewrite Eo. simpl.
  destruct (_plot_markers (_host_map w)) as [ms|] eqn:Ems; simpl;
    rewrite ?Ems, Ecm; simpl; rewrite Eln; simpl; rewrite Ely, Exds, Esel, Ed; simpl.
  all: case_bool_decide as Hw; simpl.
  all: try (destruct Hwl as [values Ev];
            [by apply eq_None_not_Some|rewrite Ev; simpl]).
  all: rewrite Eax; simpl.
  all: destruct (in_kernel w) eqn:Ek; simpl;
    repeat (progress (rewrite ?Ek, ?Eo, ?Ed; simpl)).
  all: rewrite ?lookup_insert_eq.
  all: by repeat split.
Qed.

Lemma click_on_scalar_selection_witness :
  let w := upd_host (λ m, mkHostMap
                 [("EMIT", {| xds := Some {| sel_reflectance := λ _ _,
                                 Some (mkDataArray 1%positive None);
                               ds_wavelengths := Some 2%positive |} |})]
                 (controls m) (interaction_callbacks m) (default_style m)
                 (_plot_marker_cluster m) (_plot_markers m) (_spectral_data m)
                 (_file_chooser m) (_file_chooser_control m) (csv_exports m)
                 (strict_controls m)) example_widget in
  memory (exec (handle_interaction example_click) w) = memory w.
Proof.
  simpl.
  match goal with |- memory (exec _ ?w) = _ =>
    destruct (click_on_scalar_selection example_click w (69 # 2) (- (473 # 4))
                {| sel_reflectance := λ _ _, Some (mkDataArray 1%positive None);
                   ds_wavelengths := Some 2%positive |}
                (mkDataArray 1%positive None)) as (_ & H & _)
  end.
  - unfold click_reaches.
    split; [reflexivity|].
    split; [by exists []|].
    split; [by_computation|].
    split; [by_computation|].
    split; [by eexists _, _; repeat split|].
    split; [reflexivity|by_computation].
  - intros _. by exists 2%positive.
  - reflexivity.
  - exact H.
Defined.
(** ** What erases samples, and what does not *)

Lemma handle_interaction_keeps_keys kwargs k :
  preserves (λ w, is_Some (samples w !! k)) (handle_interaction kwargs).
Proof.
  intros w Hw. unfold samples in *. run.
  repeat (case_match; simplify_eq/=); try done.
  all: repeat match goal with
         | H : _spectral_data _ = Some _ |- _ => rewrite H in *; simpl in *
         end.
  all: rewrite ?lookup_insert_is_Some'; eauto.
Qed.

Lemma step_keeps_keys a k :
  clears a = false → preserves (λ w, is_Some (samples w !! k)) (step a).
Proof.
  destruct a; simpl; try done; intros _.
  all: unfold dispatch, select_layer, save_btn_click, chooser_callback.
  all: split_computation; try apply handle_interaction_keeps_keys.
  all: primitive.
  all: unfold samples in *; simpl in *; eauto.
Qed.

Lemma step_keeps_wavelengths a values :
  clears a = false →
  preserves (λ w, samples w !! "wavelengths" = Some values) (step a).
Proof.
  destruct a; simpl; try done; intros _.
  all: unfold dispatch, select_layer, save_btn_click, chooser_callback.
  all: split_computation; try apply handle_interaction_keeps_wavelengths.
  all: primitive.
  all: unfold samples in *; simpl in *; eauto.
Qed.

(** X8.  Only Reset, Close and cleanup erase samples.  Over any sequence
    of the other actions (interaction events, layer selections, Save, the
    chooser callback) every key of the sample mapping stays in it, and the
    wavelengths entry stays the array it is: selecting another layer
    and clicking does not replace it. *)
Theorem samples_persist actions w :
  Forall (λ a, clears a = false) actions →
  (∀ k, is_Some (samples w !! k) → is_Some (samples (after_actions actions w) !! k))
  ∧ (∀ values, samples w !! "wavelengths" = Some values →
       samples (after_actions actions w) !! "wavelengths" = Some values).
Proof.
  intros Hall. revert w.
  induction Hall as [|a actions Ha _ IH]; intros w; [done|].
  simpl. destruct (IH (exec (step a) w)) as [IH1 IH2]. split.
  - intros k Hk. apply IH1. by apply (step_keeps_keys a k Ha).
  - intros values Hv. apply IH2. by apply (step_keeps_wavelengths a values Ha).
Qed.

Lemma samples_persist_witness :
  samples (after_actions [SelectLayer "EMIT"; SaveClick; Interaction example_click]
             (exec (handle_interaction example_click) example_widget))
    !! "wavelengths" = Some 2%positive.
Proof.
  apply (samples_persist [SelectLayer "EMIT"; SaveClick; Interaction example_click]).
  - repeat constructor.
  - reflexivity.
Defined.

(** ** More on Close *)

(** X9.  Close takes two controls off the map and no other: a control
    stays on the map exactly when it was there and is neither the output
    control nor the spectral control.  A file chooser opened by Save and
    still waiting survives Close, with the map's reference to it. *)
Theorem cleanup_leaves_other_controls w :
  Active w →
  let w' := exec cleanup w in
  (∀ c, c ∈ controls (_host_map w')
        ↔ c ∈ controls (_host_map w) ∧ c ≠ OutputControl ∧ c ≠ SpectralControl)
  ∧ _file_chooser_control (_host_map w') = _file_chooser_control (_host_map w)
  ∧ _file_chooser (_host_map w') = _file_chooser (_host_map w)
  ∧ csv_exports (_host_map w') = csv_exports (_host_map w).
Proof.
  intros (Hh & Eoc & Hoc & Esc & Hsc & [o Eo]).
  run. rewrite Eoc, Esc, Eo. simpl.
  rewrite bool_decide_eq_true_2 by done. simpl.
  rewrite bool_decide_eq_true_2 by (by apply list_elem_of_filter). simpl.
  destruct (_spectral_widget (self w)) as [[]|] eqn:Esw,
           (_plot_marker_cluster (_host_map w)) eqn:Ec,
           (_spectral_data (_host_map w)) eqn:Ed,
           (on_close (self w)) eqn:Eon; simpl;
    repeat (progress (rewrite ?Ed, ?Ec, ?Eon, ?Esw; simpl)).
  all: split; [|done].
  all: intros c; rewrite !list_elem_of_filter; tauto.
Qed.

Lemma cleanup_leaves_other_controls_witness :
  FileChooserControl 0 ∈ controls (_host_map (exec cleanup (exec save_btn_click example_widget))).
Proof.
  destruct (cleanup_leaves_other_controls (exec save_btn_click example_widget))
    as [H _].
  - by_computation.
  - apply H. split; [by_computation|done].
Defined.

(** X10.  When the map rejects the removal of the output control (the
    control is not on the map and the map is strict), cleanup stops there
    with that exception: the handler is already unsubscribed and the
    cursor reset, but no control is removed, no handle released, markers
    and samples are kept, and the completion callback is not run. *)
Theorem cleanup_rejected w c :
  _output_control (self w) = Some c →
  c ∉ controls (_host_map w) →
  strict_controls (_host_map w) = true →
  let w' := exec cleanup w in
  result cleanup w = Raised (ControlException c)
  ∧ (WidgetHandler ∉ interaction_callbacks (_host_map w'))
  ∧ default_style (_host_map w') = "default"
  ∧ controls (_host_map w') = controls (_host_map w)
  ∧ self w' = self w
  ∧ guarded_references w' = guarded_references w
  ∧ on_close_calls w' = on_close_calls w.
Proof.
  intros Eoc Hc Est. unfold guarded_references. run.
  rewrite Eoc. simpl. rewrite bool_decide_eq_false_2 by done. rewrite Est. simpl.
  split; [done|]. split; [apply not_elem_of_filter_ne|]. by destruct (self w).
Qed.

Lemma cleanup_rejected_witness :
  result cleanup (exec cleanup example_widget)
  = Raised (ControlException OutputControl)
  ∧ on_close_calls (exec cleanup (exec cleanup example_widget))
    = on_close_calls (exec cleanup example_widget).
Proof.
  destruct (cleanup_rejected (exec cleanup example_widget) OutputControl)
    as (H1 & _ & _ & _ & _ & _ & H2).
  - reflexivity.
  - by_computation.
  - reflexivity.
  - split; [exact H1|exact H2].
Defined.

(** ** Reset and Save on a closed widget *)

(** X11.  Once the output panel is released (after Close), Reset and Save
    raise AttributeError.  Reset has by then emptied the markers and the
    samples it found; Save, when the map has its sample mapping, has
    changed nothing and opened no chooser. *)
Theorem buttons_after_close w :
  _output_widget (self w) = None →
  result reset_btn_click w = Raised (AttributeError "clear_output")
  ∧ samples (exec reset_btn_click w) = ∅
  ∧ (is_Some (_spectral_data (_host_map w)) →
     save_btn_click w = (Raised (AttributeError "clear_output"), w)).
Proof.
  intros Eo. unfold samples. run.
  destruct (_plot_marker_cluster (_host_map w)) eqn:Ec,
           (_spectral_data (_host_map w)) eqn:Ed; simpl;
    repeat (progress (rewrite ?Ec, ?Ed, ?Eo; simpl)).
  all: repeat split; try done; by intros [? ?].
Qed.

Lemma buttons_after_close_witness :
  result reset_btn_click (exec cleanup example_widget)
  = Raised (AttributeError "clear_output")
  ∧ save_btn_click (exec cleanup example_widget)
    = (Raised (AttributeError "clear_output"), exec cleanup example_widget).
Proof.
  destruct (buttons_after_close (exec cleanup example_widget)) as (H1 & _ & H2).
  - reflexivity.
  - split; [exact H1|]. apply H2. by exists ∅.
Defined.

(** ** Save and the chooser callback, together *)

(** X12.  Save followed by a confirmed selection in the chooser it opened
    hands the path to [spectral_to_csv] and leaves the controls of the map
    as they were before Save; the output panel has been cleared. *)
Theorem save_then_select w chooser file_path :
  is_Some (_spectral_data (_host_map w)) →
  is_Some (_output_widget (self w)) →
  FileChooserControl (file_choosers w) ∉ controls (_host_map w) →
  selected chooser = Some file_path →
  file_path ≠ "" →
  let w' := exec (chooser_callback chooser) (exec save_btn_click w) in
  result (chooser_callback chooser) (exec save_btn_click w) = Returned tt
  ∧ controls (_host_map w') = controls (_host_map w)
  ∧ csv_exports (_host_map w') = csv_exports (_host_map w) ++ [file_path]
  ∧ closed_choosers w' = closed_choosers w ++ [file_choosers w]
  ∧ panel_items w' = [].
Proof.
  intros [d Ed] [o Eo] Hfresh Esel Hne. unfold panel_items.
  run. rewrite Ed, Eo, Esel. simpl.
  rewrite bool_decide_eq_false_2 by done. simpl.
  rewrite bool_decide_eq_true_2 by (rewrite elem_of_app, list_elem_of_singleton; by right).
  simpl.
  rewrite bool_decide_eq_true_2 by (rewrite elem_of_app, list_elem_of_singleton; by right).
  simpl. repeat split; try done.
  rewrite filter_app, filter_ne_absent by done.
  rewrite filter_cons_False, filter_nil by (by intros ?).
  by rewrite app_nil_r.
Qed.

Lemma save_then_select_witness :
  controls (_host_map (exec (chooser_callback example_chooser)
                         (exec save_btn_click example_widget)))
  = controls (_host_map example_widget).
Proof.
  apply (save_then_select example_widget example_chooser "spectral_data.csv").
  - by exists ∅.
  - vm_compute. eauto.
  - by_computation.
  - reflexivity.
  - done.
Defined.

(** X13.  The callback removes the control the map's attribute names, not
    the control of the chooser that calls it: after two Saves a selection
    in either chooser removes the second control and leaves the first on
    the map. *)
Theorem second_save_strands_first_chooser w chooser file_path :
  is_Some (_spectral_data (_host_map w)) →
  is_Some (_output_widget (self w)) →
  selected chooser = Some file_path →
  file_path ≠ "" →
  let w' := exec (chooser_callback chooser)
              (exec save_btn_click (exec save_btn_click w)) in
  FileChooserControl (file_choosers w) ∈ controls (_host_map w')
  ∧ (FileChooserControl (S (file_choosers w)) ∉ controls (_host_map w')).
Proof.
  intros [d Ed] [o Eo] Esel Hne.
  run. repeat (progress (rewrite ?Ed, ?Eo, ?Esel; simpl)).
  rewrite bool_decide_eq_false_2 by done. simpl.
  rewrite bool_decide_eq_true_2
    by (rewrite !elem_of_app, !list_elem_of_singleton; by right).
  simpl.
  rewrite bool_decide_eq_true_2
    by (rewrite !elem_of_app, !list_elem_of_singleton; by right).
  simpl. split; [|apply not_elem_of_filter_ne].
  apply list_elem_of_filter. split; [intros [=]; lia|].
  rewrite !elem_of_app, !list_elem_of_singleton. by left; right.
Qed.

Lemma second_save_strands_first_chooser_witness :
  FileChooserControl 0
  ∈ controls (_host_map (exec (chooser_callback (mkFileChooser 0 (Some "a.csv")))
                           (exec save_btn_click (exec save_btn_click example_widget)))).
Proof.
  apply (second_save_strands_first_chooser example_widget
           (mkFileChooser 0 (Some "a.csv")) "a.csv").
  - by exists ∅.
  - vm_compute. eauto.
  - reflexivity.
  - done.
Defined.


Lemma chooser_callback_effect w chooser file_path :
  selected chooser = Some file_path →
  file_path ≠ "" →
  let m := _host_map w in
  let m' := _host_map (exec (chooser_callback chooser) w) in
  controls m'
  = from_option (λ n, filter (λ c, c ≠ FileChooserControl n) (controls m))
      (controls m) (_file_chooser_control m)
  ∧ csv_exports m' = csv_exports m ++ [file_path]
  ∧ _file_chooser_control m' = _file_chooser_control m.
Proof.
  intros Esel Hne. run. rewrite Esel. simpl.
  rewrite bool_decide_eq_false_2 by done. simpl.
  destruct (_file_chooser_control (_host_map w)) as [n|] eqn:En; simpl; [|done].
  destruct (decide (FileChooserControl n ∈ controls (_host_map w))) as [Hin|Hin].
  - rewrite bool_decide_eq_true_2 by done. simpl.
    rewrite bool_decide_eq_true_2 by done.
    by destruct (_file_chooser (_host_map w)).
  - rewrite bool_decide_eq_false_2 by done. simpl.
    by rewrite filter_ne_absent.
Qed.

(** X14.  A selection confirmed again, after the chooser control is gone,
    exports again and changes no control. *)
Theorem chooser_callback_again w chooser file_path :
  selected chooser = Some file_path →
  file_path ≠ "" →
  let w1 := exec (chooser_callback chooser) w in
  let w2 := exec (chooser_callback chooser) w1 in
  controls (_host_map w2) = controls (_host_map w1)
  ∧ csv_exports (_host_map w2) = csv_exports (_host_map w) ++ [file_path; file_path]
  ∧ result (chooser_callback chooser) w1 = Returned tt.
Proof.
  intros Esel Hne. simpl.
  destruct (chooser_callback_effect w chooser file_path Esel Hne) as (Ec1 & Ex1 & Ea1).
  destruct (chooser_callback_effect (exec (chooser_callback chooser) w)
              chooser file_path Esel Hne) as (Ec2 & Ex2 & _).
  rewrite Ex2, Ex1, <- app_assoc. split; [|split; [done|]].
  - rewrite Ec2, Ea1, Ec1.
    destruct (_file_chooser_control (_host_map w)) as [n|]; simpl; [|done].
    apply filter_ne_absent, not_elem_of_filter_ne.
  - unfold result. run. rewrite Esel. simpl.
    rewrite bool_decide_eq_false_2 by done. simpl.
    unfold exec in Ea1, Ec1. run. rewrite Esel in Ea1, Ec1. simpl in *.
    rewrite bool_decide_eq_false_2 in Ea1, Ec1 by done. simpl in *.
    rewrite Ea1.
    destruct (_file_chooser_control (_host_map w)) as [n|]; simpl; [|done].
    rewrite bool_decide_eq_false_2; [done|].
    rewrite Ec1. simpl. apply not_elem_of_filter_ne.
Qed.

Lemma chooser_callback_again_witness :
  csv_exports (_host_map (exec (chooser_callback example_chooser)
                            (exec (chooser_callback example_chooser) example_widget)))
  = ["spectral_data.csv"; "spectral_data.csv"].
Proof.
  destruct (chooser_callback_again example_widget example_chooser "spectral_data.csv")
    as (_ & H & _); [reflexivity|done|exact H].
Defined.

(** ** Samples and markers *)

Lemma sample_count_insert_key (d : gmap string loc) lat lon l :
  (size (delete "wavelengths" (<[sample_key lat lon := l]> d))
   ≤ S (size (delete "wavelengths" d)))%nat.
Proof.
  rewrite delete_insert_ne
    by (intros E; symmetry in E; by apply sample_key_not_wavelengths in E).
  rewrite map_size_insert. destruct (delete _ _ !! _); simpl; lia.
Qed.

Lemma handle_interaction_keeps_count kwargs :
  preserves (λ w, (sample_count w ≤ length (marker_list w))%nat) (handle_interaction kwargs).
Proof.
  intros w Hw. unfold sample_count, samples, marker_list in *. run.
  repeat (case_match; simplify_eq/=); try done.
  all: repeat match goal with
         | H : _spectral_data _ = Some _ |- _ => rewrite H in *; simpl in *
         | H : _plot_markers _ = _ |- _ => rewrite H in *; simpl in *
         end.
  all: rewrite ?length_app; simpl; try lia.
  all: try (etrans; [apply sample_count_insert_key|]);
       rewrite ?delete_insert_eq; lia.
Qed.

Lemma cleanup_ends_with_tail :
  cleanup =
  (modify (upd_host (set_default_style "default"));;
   on_interaction WidgetHandler true;;
   s ← gets self;
   (match _output_control s with
    | Some output_control =>
        remove_control output_control;;
        match _output_widget s with
        | Some o =>
            modify (upd_self (set_output_widget (Some (mkOutput (out_items o) true))));;
            modify (upd_self (set_output_widget None))
        | None => skip
        end
    | None => skip
    end);;
   (match _spectral_control s with
    | Some spectral_control =>
        remove_control spectral_control;;
        modify (upd_self (set_spectral_control None));;
        match _spectral_widget s with
        | Some Self =>
            modify (upd_self (set_closed true));;
            modify (upd_self (set_spectral_widget None))
        | None => skip
        end
    | None => skip
    end);;
   cleanup_tail).
Proof. reflexivity. Qed.

Lemma cleanup_tail_keeps_count :
  preserves (λ w, (sample_count w ≤ length (marker_list w))%nat) cleanup_tail.
Proof.
  intros w Hw. unfold cleanup_tail, sample_count, samples, marker_list in *. run.
  repeat (case_match; simplify_eq/=); try done.
  all: repeat match goal with
         | H : _spectral_data _ = _ |- _ => rewrite H in *; simpl in *
         | H : _plot_markers _ = _ |- _ => rewrite H in *; simpl in *
         end.
  all: rewrite ?delete_empty, ?map_size_empty; simpl; lia.
Qed.

Lemma step_keeps_count a :
  preserves (λ w, (sample_count w ≤ length (marker_list w))%nat) (step a).
Proof.
  destruct a; simpl.
  1: { unfold dispatch. split_computation; apply handle_interaction_keeps_count. }
  4,6: unfold close_widget; rewrite cleanup_ends_with_tail;
         split_computation; try apply cleanup_tail_keeps_count; primitive; done.
  all: intros w Hw; unfold sample_count, samples, marker_list in *; run.
  all: repeat (case_match; simplify_eq/=); try done.
  all: repeat match goal with
         | H : _spectral_data _ = _ |- _ => rewrite H in *; simpl in *
         | H : _plot_markers _ = _ |- _ => rewrite H in *; simpl in *
         end.
  all: rewrite ?delete_empty, ?map_size_empty; simpl; lia.
Qed.

(** X15.  There are never more samples than markers: if the sample keys
    (the mapping without its wavelengths entry) are at most as many as the
    markers of the marker list, they stay so over every sequence of
    actions. *)
Theorem samples_at_most_markers actions w :
  (sample_count w ≤ length (marker_list w))%nat →
  (sample_count (after_actions actions w)
   ≤ length (marker_list (after_actions actions w)))%nat.
Proof.
  revert w. induction actions as [|a actions IH]; intros w Hw; [done|].
  simpl. apply IH. by apply step_keeps_count.
Qed.

Lemma samples_at_most_markers_witness :
  (sample_count (after_actions [Interaction example_click; ResetClick;
                                Interaction example_click] example_widget)
   ≤ length (marker_list (after_actions [Interaction example_click; ResetClick;
                                         Interaction example_click] example_widget)))%nat.
Proof.
  apply samples_at_most_markers. vm_compute. lia.
Defined.

(** ** Construction, Reset and a click, together *)

(** X16.  A click right after construction samples the first registered
    layer: on a map that has its marker cluster, the widget just built
    records the reflectance which that layer's dataset selects at the
    point, under the key of the point. *)
Theorem first_click_samples_first_layer position w0 kwargs name layer others
    ds da lat lon rest :
  cog_layer_dict (_host_map w0) = (name, layer) :: others →
  xds layer = Some ds →
  sel_reflectance ds lat lon = Some da →
  is_Some (_plot_marker_cluster (_host_map w0)) →
  (samples w0 !! "wavelengths" = None → is_Some (ds_wavelengths ds)) →
  ev_type kwargs = Some "click" →
  ev_coordinates kwargs = Some (lat :: lon :: rest) →
  let w := exec (__init__ position) w0 in
  layers_value (self w) = Some name
  ∧ samples (exec (handle_interaction kwargs) w) !! sample_key lat lon
    = Some (da_values da).
Proof.
  intros Ecog Exds Esel [cm Ecm] Hwl Ety Eco. simpl.
  assert (Hinit :
    layers_value (self (exec (__init__ position) w0)) = Some name
    ∧ click_reaches kwargs (exec (__init__ position) w0) lat lon ds da
    ∧ _spectral_data (_host_map (exec (__init__ position) w0)) = Some (samples w0)).
  { unfold click_reaches, samples. run. rewrite Ecog. simpl.
    destruct (_spectral_data (_host_map w0)) eqn:Ed; simpl;
      case_bool_decide; simpl; rewrite ?Ecog, ?Ecm, ?Ed; simpl.
    all: rewrite ?bool_decide_eq_true_2 by done.
    all: repeat split; eauto 10.
    all: exists name, layer; simpl;
      by rewrite bool_decide_eq_true_2 by done. }
  destruct Hinit as (El & Hr & Ed). split; [done|].
  destruct (click_effect _ _ _ _ _ _ _ Hr Ed Hwl) as (Ed' & _).
  unfold samples at 1. rewrite Ed'. simpl. apply lookup_insert_eq.
Qed.

Lemma first_click_samples_first_layer_witness :
  samples (exec (handle_interaction example_click)
             (exec (__init__ "topright") example_session))
    !! "(34.5000 -118.2500)" = Some 1%positive.
Proof.
  apply (first_click_samples_first_layer "topright" example_session example_click
           "EMIT" {| xds := Some example_dataset |} [] example_dataset
           (mkDataArray 1%positive (Some 2%positive)) (69 # 2) (- (473 # 4)) []);
    try reflexivity; [by exists []|intros _; by exists 2%positive].
Defined.

(** X17.  Reset starts the mapping afresh: after Reset, a click that
    reaches the reflectance leaves a mapping with exactly two entries, the
    wavelengths of the dataset of the layer now selected and the sample of
    that click, whatever the mapping held before. *)
Theorem reset_then_click kwargs w lat lon ds da values :
  click_reaches kwargs w lat lon ds da →
  ds_wavelengths ds = Some values →
  samples (exec (handle_interaction kwargs) (exec reset_btn_click w))
  = <[sample_key lat lon := da_values da]> {["wavelengths" := values]}.
Proof.
  intros Hr Hv.
  assert (Hreset : click_reaches kwargs (exec reset_btn_click w) lat lon ds da
                   ∧ _spectral_data (_host_map (exec reset_btn_click w)) = Some ∅).
  { destruct Hr as (Ety & Eco & [o Eo] & [cm Ecm] & (name & layer & Eln & Ely & Exds)
                    & Esel & [d Ed]).
    unfold click_reaches. run.
    repeat (progress (rewrite ?Ecm, ?Ed, ?Eo; simpl)).
    repeat split; eauto 10. }
  destruct Hreset as [Hr' Ed'].
  destruct (click_effect _ _ _ _ _ _ _ Hr' Ed') as (Ed'' & _).
  { intros _. by exists values. }
  unfold samples. rewrite Ed''. simpl. by rewrite lookup_empty, Hv.
Qed.

Lemma reset_then_click_witness :
  samples (exec (handle_interaction example_click)
             (exec reset_btn_click
                (exec (handle_interaction example_click) example_widget)))
  = <["(34.5000 -118.2500)" := 1%positive]> {["wavelengths" := 2%positive]}.
Proof.
  apply (reset_then_click example_click
           (exec (handle_interaction example_click) example_widget)
           (69 # 2) (- (473 # 4)) example_dataset
           (mkDataArray 1%positive (Some 2%positive)) 2%positive).
  - example_click_reaches.
  - reflexivity.
Defined.
